(** * MultiMarket-Pro: order fulfilment dashboard

    A shallow embedding of the synchronisation and derived-view logic of
    [src/OrderFulfillmentDashboard.jsx]: the collaborative dashboard, the
    component that owns [orders], [filteredOrders], [handleUpdateStatus],
    [handleDeleteOrder] and [AddOrderForm]. The two earlier dashboards of the
    file, which keep a private collection per user, are not modelled.

    JavaScript objects are finite maps from property names to values, arrays
    are lists, an exception is an explicit [Throw] result, the array held in
    the [orders] state is told apart from arrays made by [filter], and the
    calls made to the Firestore SDK are recorded in a trace. What the SDK and
    the clock answer is a parameter of the model. *)

From Stdlib Require Import ZArith List Ascii String Sorting.Sorted Sorting.Permutation.
From stdpp Require Import gmap strings list fin_maps pretty.

Local Open Scope string_scope.
Local Open Scope Z_scope.
Local Set Warnings "-register-all".

(** ** JavaScript values and runtime helpers *)

Module Js.

(** The time value of a [Date]: milliseconds since the epoch, or [None] for
    an Invalid Date (time value NaN). *)
Definition Date := option Z.

(** Property values. Numbers are kept at their integer values; a Firestore
    [Timestamp] is the object [{seconds, nanoseconds}]. *)
Inductive jsvalue :=
| VNull
| VBool (b : bool)
| VNum (n : Z)
| VStr (s : string)
| VTimestamp (seconds nanoseconds : Z)
| VDate (d : Date)
| VArr (items : list jsvalue)
| VObj (fields : list (string * jsvalue)).

Inductive exn :=
| TypeError (msg : string)
| FirebaseError (msg : string).

Definition message (e : exn) : string :=
  match e with TypeError m | FirebaseError m => m end.

Inductive outcome (A : Type) :=
| Ok (a : A)
| Throw (e : exn).
Arguments Ok {A} a.
Arguments Throw {A} e.

#[global] Instance outcome_ret : MRet outcome := @Ok.
#[global] Instance outcome_bind : MBind outcome :=
  fun A B f x => match x with Ok a => f a | Throw e => Throw e end.

(** ToBoolean of a property read. *)
Definition truthy (v : option jsvalue) : bool :=
  match v with
  | None | Some VNull => false
  | Some (VBool b) => b
  | Some (VNum n) => negb (n =? 0)
  | Some (VStr s) => negb (String.eqb s "")
  | Some (VTimestamp _ _) | Some (VDate _) | Some (VArr _) | Some (VObj _) => true
  end.

(** [new Date(ms)] for a finite integral [ms]: TimeClip leaves the time
    value alone within +-8.64e15 and gives an Invalid Date outside. *)
Definition new_Date (ms : Z) : Date :=
  if Z.abs ms <=? 8640000000000000 then Some ms else None.

(** The property read [v.seconds] on a truthy value: a Timestamp and a map
    with such an entry have it, on anything else the read is [undefined]. *)
Definition seconds_of (v : jsvalue) : option jsvalue :=
  match v with
  | VTimestamp s _ => Some (VNum s)
  | VObj fields => snd <$> List.find (fun kv => String.eqb (fst kv) "seconds") fields
  | _ => None
  end.

(** ToNumber, with [None] for NaN. The conversion of a string, an array or
    an object follows the parsing rules of the language and is left out: the
    model reads NaN there. *)
Definition to_number (v : option jsvalue) : option Z :=
  match v with
  | Some (VNum n) => Some n
  | Some VNull => Some 0
  | Some (VBool b) => Some (if b then 1 else 0)
  | _ => None
  end.

(** [v.seconds * 1000] *)
Definition seconds_times_1000 (v : jsvalue) : option Z :=
  (fun s => s * 1000) <$> to_number (seconds_of v).

(** [new Date(x)] for a number that may be NaN. *)
Definition new_Date_of (x : option Z) : Date :=
  match x with Some ms => new_Date ms | None => None end.

(** [String.prototype.toLowerCase] on ASCII text. *)
Definition lower_ascii (c : ascii) : ascii :=
  let n := nat_of_ascii c in
  if ((65 <=? n)%nat && (n <=? 90)%nat)%bool then ascii_of_nat (n + 32) else c.

Fixpoint toLowerCase (s : string) : string :=
  match s with
  | EmptyString => EmptyString
  | String c s' => String (lower_ascii c) (toLowerCase s')
  end.

(** [String.prototype.includes]. *)
Fixpoint includes (s sub : string) : bool :=
  if String.prefix sub s then true
  else match s with
       | EmptyString => false
       | String _ s' => includes s' sub
       end.

(** [Array.prototype.sort(comparefn)]: a stable sort (ECMAScript 2019).
    [comparefn a b] is [None] when the script's comparator yields NaN, which
    the sort reads as +0. An element [x] that stood before [y] moves behind it
    only when [comparefn x y > 0]. *)
Section Sort.
Context {A : Type} (comparefn : A -> A -> option Z).

Definition goes_after (x y : A) : bool :=
  match comparefn x y with
  | Some v => 0 <? v
  | None => false
  end.

Fixpoint sort_insert (x : A) (l : list A) : list A :=
  match l with
  | [] => [x]
  | y :: l' => if goes_after x y then y :: sort_insert x l' else x :: y :: l'
  end.

Fixpoint sort (l : list A) : list A :=
  match l with
  | [] => []
  | x :: l' => sort_insert x (sort l')
  end.

(** Neighbours the sort has no reason to swap. *)
Definition settled (x y : A) : Prop := goes_after x y = false.
End Sort.

(** [Array.prototype.filter] with a callback that may throw: elements are
    visited left to right and the first exception aborts the call. *)
Fixpoint filter_throwing {A : Type} (p : A -> outcome bool) (l : list A) : outcome (list A) :=
  match l with
  | [] => Ok []
  | x :: l' =>
      b ← p x;
      rest ← filter_throwing p l';
      Ok (if b : bool then x :: rest else rest)
  end.

End Js.
Import Js.

(** ** Firestore snapshots and the orders state *)

(** A document of a snapshot: [doc.id] and [doc.data()]. *)
Record doc := Doc { doc_id : string; doc_data : gmap string jsvalue }.

(** An element of the [orders] state. Its [order_date] property is always a
    [Date] (the snapshot callback writes it last), so the model keeps it in a
    field of its own; [props] holds every other property. *)
Record order := Order { props : gmap string jsvalue; order_date : Date }.

(** The property read [order.k]. *)
Definition get (o : order) (k : string) : option jsvalue :=
  if String.eqb k "order_date" then Some (VDate (order_date o)) else props o !! k.

(** The object literal of the snapshot callback,
    [{ id: doc.id, ...doc.data(), order_date: c ? new Date(s * 1000) : new Date() }];
    [now] is the clock reading taken by [new Date()]. A spread property [id]
    in the data overwrites the [id] written first. *)
Definition toOrder (now : Z) (d : doc) : order :=
  let data := doc_data d in
  {| props := delete "order_date" (data ∪ {["id" := VStr (doc_id d)]});
     order_date :=
       if truthy (data !! "order_date")
       then new_Date_of (from_option seconds_times_1000 None (data !! "order_date"))
       else new_Date now |}.

(** The [onSnapshot(orderRef, ...)] success callback: the value handed to
    [setOrders]. [clock i] is the clock reading while document [i] is mapped. *)
Definition onSnapshot_orders (clock : nat -> Z) (docs : list doc) : list order :=
  imap (fun i d => toOrder (clock i) d) docs.

(** A delivery: the snapshot's documents and the clock during its processing. *)
Record delivery := Delivery { snapshot_docs : list doc; clock_at : nat -> Z }.

(** [setOrders(fetchedOrders)] replaces the state; the previous state is not
    read. *)
Definition deliver (orders : list order) (d : delivery) : list order :=
  onSnapshot_orders (clock_at d) (snapshot_docs d).


(** ** Status options *)

Record status_option :=
  { value : string; label : string; color : string; icon : string }.

Definition STATUS_OPTIONS : list status_option :=
  [ {| value := "new"; label := "Nuevo"; color := "bg-blue-500"; icon := "📦" |};
    {| value := "preparing"; label := "En Preparación"; color := "bg-yellow-500"; icon := "🛠️" |};
    {| value := "ready_to_ship"; label := "Listo para Despacho"; color := "bg-purple-500"; icon := "🚚" |};
    {| value := "shipped"; label := "Enviado"; color := "bg-green-500"; icon := "✅" |};
    {| value := "cancelled"; label := "Cancelado"; color := "bg-red-500"; icon := "❌" |} ].

(** [order.status === s] for a string [s]. *)
Definition status_is (o : order) (s : string) : bool :=
  match get o "status" with
  | Some (VStr t) => String.eqb t s
  | _ => false
  end.

(** [STATUS_OPTIONS.find(s => s.value === statusValue) || STATUS_OPTIONS[0]] *)
Definition getStatusDetails (statusValue : option jsvalue) : option status_option :=
  match statusValue with
  | Some (VStr t) =>
      match List.find (fun s => String.eqb (value s) t) STATUS_OPTIONS with
      | Some s => Some s
      | None => head STATUS_OPTIONS
      end
  | _ => head STATUS_OPTIONS
  end.

(** The badge of one option of the status filter,
    [orders.filter(o => o.status === s.value).length]. *)
Definition status_count (orders : list order) (s : status_option) : nat :=
  List.length (List.filter (fun o => status_is o (value s)) orders).

(** The badge of the option "all": [orders.length]. *)
Definition all_count (orders : list order) : nat := List.length orders.

(** ** The derived view, [filteredOrders] *)

(** [x.toLowerCase().includes(searchLower)] for a property read [x]. *)
Definition lower_includes (x : option jsvalue) (searchLower : string) : outcome bool :=
  match x with
  | Some (VStr s) => Ok (includes (toLowerCase s) searchLower)
  | None => Throw (TypeError "Cannot read properties of undefined (reading 'toLowerCase')")
  | Some VNull => Throw (TypeError "Cannot read properties of null (reading 'toLowerCase')")
  | Some _ => Throw (TypeError "toLowerCase is not a function")
  end.

(** The search callback; [||] evaluates its right operand only when the left
    one is false. *)
Definition matches_search (searchLower : string) (o : order) : outcome bool :=
  a ← lower_includes (get o "order_id") searchLower;
  if a : bool then Ok true else
  b ← lower_includes (get o "customer_name") searchLower;
  if b : bool then Ok true else
  lower_includes (get o "marketplace") searchLower.

(** [(a, b) => b.order_date.getTime() - a.order_date.getTime()]; the
    difference is NaN when either date is invalid. Only its sign is used. *)
Definition by_date_desc (a b : order) : option Z :=
  match order_date b, order_date a with
  | Some tb, Some ta => Some (tb - ta)
  | _, _ => None
  end.

(** [currentOrders] is either the very array held in the [orders] state or
    an array made by [filter]. *)
Inductive array_ref :=
| OrdersState
| FreshArray (elems : list order).

Definition deref (orders : list order) (r : array_ref) : list order :=
  match r with
  | OrdersState => orders
  | FreshArray l => l
  end.

(** [r.sort(comparefn)] sorts the array [r] designates in place and returns
    [r]; the first component is the [orders] array afterwards. *)
Definition sort_in_place (orders : list order) (r : array_ref) : list order * array_ref :=
  match r with
  | OrdersState => (sort by_date_desc orders, OrdersState)
  | FreshArray l => (orders, FreshArray (sort by_date_desc l))
  end.

(** One evaluation of the [useMemo] body. *)
Record evaluation :=
  { returned : outcome array_ref;  (* the value of [filteredOrders], or the exception *)
    orders_after : list order }.   (* the [orders] array after the evaluation *)

Definition filteredOrders (orders : list order) (filter searchTerm : string) : evaluation :=
  let currentOrders :=
    if String.eqb filter "all" then OrdersState
    else FreshArray (List.filter (fun o => status_is o filter) orders) in
  let searched :=
    if negb (String.eqb searchTerm "") then
      let searchLower := toLowerCase searchTerm in
      l ← filter_throwing (matches_search searchLower) (deref orders currentOrders);
      Ok (FreshArray l)
    else Ok currentOrders in
  match searched with
  | Throw e => {| returned := Throw e; orders_after := orders |}
  | Ok r =>
      let '(orders', r') := sort_in_place orders r in
      {| returned := Ok r'; orders_after := orders' |}
  end.

(** The sequence the component renders: the elements of the returned array. *)
Definition view (ev : evaluation) : outcome (list order) :=
  r ← returned ev; Ok (deref (orders_after ev) r).

(** ** The component state and the Firestore SDK *)

Inductive Firestore := FirestoreInstance.

Record CollectionReference := { path : string }.

(** The calls that reach the SDK's write functions, with their arguments;
    [UpdateDoc p i _] and [DeleteDoc p i] stand for a call on the document
    reference [doc(db, p, i)]. *)
Inductive sdk_call :=
| AddDoc (ref : option CollectionReference) (data : gmap string jsvalue)
| UpdateDoc (collection_path id : string) (data : gmap string jsvalue)
| DeleteDoc (collection_path id : string).

(** The state the handlers read and write, and the trace of SDK calls. *)
Record state :=
  { db : option Firestore;
    userId : option string;
    linkedMarketplaces : list (gmap string jsvalue);
    error : option string;
    formData : gmap string jsvalue;
    isAdding : bool;
    trace : list sdk_call }.

Definition set_error (msg : string) (st : state) : state :=
  {| db := db st; userId := userId st; linkedMarketplaces := linkedMarketplaces st;
     error := Some msg; formData := formData st; isAdding := isAdding st;
     trace := trace st |}.

Definition set_formData (fd : gmap string jsvalue) (st : state) : state :=
  {| db := db st; userId := userId st; linkedMarketplaces := linkedMarketplaces st;
     error := error st; formData := fd; isAdding := isAdding st;
     trace := trace st |}.

Definition set_isAdding (b : bool) (st : state) : state :=
  {| db := db st; userId := userId st; linkedMarketplaces := linkedMarketplaces st;
     error := error st; formData := formData st; isAdding := b;
     trace := trace st |}.

Definition record_call (c : sdk_call) (st : state) : state :=
  {| db := db st; userId := userId st; linkedMarketplaces := linkedMarketplaces st;
     error := error st; formData := formData st; isAdding := isAdding st;
     trace := trace st ++ [c] |}.

(** A handler run: how the async function completed (resolved, or rejected
    with an exception nobody catches) and the state it left. *)
Definition M (A : Type) : Type := state -> outcome A * state.

#[global] Instance M_ret : MRet M := fun A a st => (Ok a, st).
#[global] Instance M_bind : MBind M :=
  fun A B f m st => match m st with
                    | (Ok a, st') => f a st'
                    | (Throw e, st') => (Throw e, st')
                    end.
Definition throw {A} (e : exn) : M A := fun st => (Throw e, st).
Definition try_catch {A} (body : M A) (handler : exn -> M A) : M A :=
  fun st => match body st with
            | (Ok a, st') => (Ok a, st')
            | (Throw e, st') => handler e st'
            end.
Definition finally {A} (body : M A) (cleanup : state -> state) : M A :=
  fun st => let '(r, st') := body st in (r, cleanup st').
Definition modify (f : state -> state) : M unit := fun st => (Ok tt, f st).
Definition read {A} (f : state -> A) : M A := fun st => (Ok (f st), st).

(** [userId] as a property value, and [!userId]. *)
Definition userId_value (st : state) : jsvalue :=
  match userId st with Some u => VStr u | None => VNull end.

Definition session_ready (st : state) : bool :=
  match db st with
  | Some _ => truthy (Some (userId_value st))
  | None => false
  end.

(** Writing [k: v] in an object literal; a property holding [undefined]
    reads like an absent one. *)
Definition set_prop (k : string) (v : option jsvalue) (o : gmap string jsvalue)
  : gmap string jsvalue :=
  match v with Some x => <[k := x]> o | None => delete k o end.

Section Handlers.
(** The application id, the SDK's answer to each call (the awaited promise
    resolves, or rejects with an error) and [parseFloat]. *)
Variable appId : string.
Variable sdk : sdk_call -> option exn.
Variable parseFloat : option jsvalue -> jsvalue.
(** [doc(db, path, id)] builds a reference without contacting the store; it
    throws on an id the SDK does not take as a path segment. *)
Variable doc_refused : string -> string -> option exn.

Definition await (c : sdk_call) : M unit :=
  fun st => (match sdk c with None => Ok tt | Some e => Throw e end, record_call c st).

Definition getOrderCollectionRef (st : state) : option CollectionReference :=
  if session_ready st
  then Some {| path := "artifacts/" +:+ appId +:+ "/public/data/orders" |}
  else None.

(** [getOrderCollectionRef().path] *)
Definition orderCollectionPath : M string :=
  fun st => match getOrderCollectionRef st with
            | Some r => (Ok (path r), st)
            | None => (Throw (TypeError "Cannot read properties of null (reading 'path')"), st)
            end.

(** [doc(db, getOrderCollectionRef().path, orderId)] *)
Definition orderDocRef (orderId : string) : M string :=
  p ← orderCollectionPath;
  match doc_refused p orderId with
  | None => mret p
  | Some e => throw e
  end.

Definition handleUpdateStatus (now : Z) (orderId newStatus : string) : M unit :=
  p ← orderDocRef orderId;
  updated_by ← read userId_value;
  try_catch
     (await (UpdateDoc p orderId
               {[ "status" := VStr newStatus;
                  "updated_by" := updated_by;
                  "updated_at" := VDate (new_Date now) ]}))
     (fun e => modify (set_error ("Fallo al actualizar el estado: " +:+ message e))).

(** [confirmed] is the answer of [window.confirm]. *)
Definition handleDeleteOrder (confirmed : bool) (orderId : string) : M unit :=
  if negb confirmed then mret tt else
  p ← orderDocRef orderId;
  try_catch
    (await (DeleteDoc p orderId))
    (fun e => modify (set_error ("Fallo al eliminar el pedido: " +:+ message e))).

Definition initial_formData : gmap string jsvalue :=
  {[ "order_id" := VStr ""; "customer_name" := VStr ""; "marketplace" := VStr "";
     "amount" := VStr ""; "status" := VStr "new" ]}.

(** [setFormData(prev => ({ ...prev, [name]: value }))] *)
Definition handleChange (name value : string) (st : state) : state :=
  set_formData (<[name := VStr value]> (formData st)) st.

(** The object literal [newOrder]; [random] is
    [Math.floor(Math.random() * 100000)]. *)
Definition newOrder (now random : Z) (st : state) : gmap string jsvalue :=
  let fd := formData st in
  <["items" := VArr [VObj [("name", VStr "Producto X"); ("qty", VNum 1)]]]>
  (<["order_id" := if truthy (fd !! "order_id")
                  then default VNull (fd !! "order_id")
                  else VStr ("ORD-" +:+ pretty random)]>
  (set_prop "source" (fd !! "marketplace")
  (<["updated_by" := userId_value st]>
  (<["created_by" := userId_value st]>
  (<["order_date" := VDate (new_Date now)]>
  (<["amount" := parseFloat (fd !! "amount")]> fd)))))).

Definition handleAddOrder (now random : Z) : M unit :=
  modify (set_isAdding true);;
  order ← read (newOrder now random);
  finally
    (try_catch
       (ref ← read getOrderCollectionRef;
        await (AddDoc ref order);;
        modify (set_formData initial_formData))
       (fun e => modify (set_error ("Fallo al agregar pedido: " +:+ message e))))
    (set_isAdding false).

(** What [AddOrderForm] renders: the warning, or the form with its submit
    button. *)
Inductive AddOrderForm_view :=
| NoMarketplacesWarning
| OrderForm (submit_disabled : bool).

Definition AddOrderForm (st : state) : AddOrderForm_view :=
  if (List.length (linkedMarketplaces st) =? 0)%nat
  then NoMarketplacesWarning
  else OrderForm (isAdding st).

(** Every input and select of the form is [required]. *)
Definition required_filled (st : state) : bool :=
  forallb (fun k => truthy (formData st !! k))
          ["order_id"; "customer_name"; "marketplace"; "amount"; "status"].

(** What an attempt to submit a new order comes to. *)
Inductive submission :=
| NoFormRendered           (* only the warning is on screen *)
| SubmitBlocked            (* disabled button or an empty required field *)
| Submitted (completion : outcome unit).

Definition submitOrder (now random : Z) (st : state) : submission * state :=
  match AddOrderForm st with
  | NoMarketplacesWarning => (NoFormRendered, st)
  | OrderForm disabled =>
      if (disabled || negb (required_filled st))%bool then (SubmitBlocked, st)
      else let '(r, st') := handleAddOrder now random st in (Submitted r, st')
  end.

(** The status select of an order card,
    [onChange={(e) => handleUpdateStatus(order.id, e.target.value)}]. *)
Definition statusSelect_onChange (now : Z) (orderId : string) (target : status_option)
  : M unit :=
  handleUpdateStatus now orderId (value target).

End Handlers.

(** ** The component over time *)

(** The [App] component: the state of the handlers, the remaining [useState]
    cells, and what is registered with the SDK. *)
Record component :=
  { inner : state;
    isAuthReady : bool;
    loading : bool;
    orders : list order;
    mounted : bool;           (* the initialisation effect has run *)
    auth_observer : bool;     (* the [onAuthStateChanged] callback is registered *)
    listening : bool;         (* the two [onSnapshot] listeners are attached *)
    unhandled : list exn }.   (* rejections of async callbacks nobody catches *)

Definition initial : component :=
  {| inner := {| db := None; userId := None; linkedMarketplaces := []; error := None;
                 formData := initial_formData; isAdding := false; trace := [] |};
     isAuthReady := false; loading := true; orders := [];
     mounted := false; auth_observer := false; listening := false; unhandled := [] |}.

Definition with_inner (f : state -> state) (c : component) : component :=
  {| inner := f (inner c); isAuthReady := isAuthReady c; loading := loading c;
     orders := orders c; mounted := mounted c; auth_observer := auth_observer c;
     listening := listening c; unhandled := unhandled c |}.

Definition set_db (st : state) : state :=
  {| db := Some FirestoreInstance; userId := userId st;
     linkedMarketplaces := linkedMarketplaces st; error := error st;
     formData := formData st; isAdding := isAdding st; trace := trace st |}.

Definition set_userId (uid : string) (st : state) : state :=
  {| db := db st; userId := Some uid;
     linkedMarketplaces := linkedMarketplaces st; error := error st;
     formData := formData st; isAdding := isAdding st; trace := trace st |}.

Definition set_linkedMarketplaces (ms : list (gmap string jsvalue)) (st : state) : state :=
  {| db := db st; userId := userId st; linkedMarketplaces := ms; error := error st;
     formData := formData st; isAdding := isAdding st; trace := trace st |}.

(** What the component returns from its render. The order cards, with their
    status select and delete button, and [AddOrderForm] are part of the
    dashboard only. *)
Inductive screen :=
| LoadingScreen
| ErrorScreen (msg : string)
| Dashboard.

Definition render (c : component) : screen :=
  if (loading c || negb (isAuthReady c))%bool then LoadingScreen
  else match error (inner c) with
       | Some msg => if truthy (Some (VStr msg)) then ErrorScreen msg else Dashboard
       | None => Dashboard
       end.

(** How the initialisation effect ends: no configuration, an exception in
    the [try] block (before or after [setDb]), or the auth observer
    registered. *)
Inductive init_result :=
| ConfigMissing
| InitThrew (db_was_set : bool) (e : exn)
| InitDone.

(** What can happen to the mounted component. *)
Inductive event :=
| Mount (r : init_result)
| AuthStateChanged (user : option string) (signIn : option exn)
| ListenersAttached
| MarketplacesSnapshot (docs : list doc)
| OrdersSnapshot (d : delivery)
| OrdersError (e : exn)
| StatusSelected (orderId : string) (option_index : nat) (now : Z)
| DeleteClicked (orderId : string) (confirmed : bool)
| FieldChanged (name value : string)
| FormSubmitted (now random : Z).


(** An order card with this id is on the dashboard. *)
Definition has_card (c : component) (orderId : string) : bool :=
  match render c with
  | Dashboard =>
      existsb (fun o => match get o "id" with
                        | Some (VStr i) => String.eqb i orderId
                        | _ => false
                        end) (orders c)
  | _ => false
  end.

Section Lifecycle.
Variable appId : string.
Variable sdk : sdk_call -> option exn.
Variable parseFloat : option jsvalue -> jsvalue.
Variable doc_refused : string -> string -> option exn.

(** An async event handler run from the dashboard: a rejection is caught by
    nobody. *)
Definition run_handler (h : M unit) (c : component) : component :=
  let '(r, st') := h (inner c) in
  {| inner := st'; isAuthReady := isAuthReady c; loading := loading c;
     orders := orders c; mounted := mounted c; auth_observer := auth_observer c;
     listening := listening c;
     unhandled := match r with Ok _ => unhandled c | Throw e => unhandled c ++ [e] end |}.

(** One event; [None] when it cannot occur in that state. *)
Definition step (e : event) (c : component) : option component :=
  match e with
  | Mount r =>
      if mounted c then None else
      Some match r with
           | ConfigMissing =>
               {| inner := set_error "Error: La configuración de Firebase está ausente." (inner c);
                  isAuthReady := isAuthReady c; loading := false; orders := orders c;
                  mounted := true; auth_observer := false; listening := listening c;
                  unhandled := unhandled c |}
           | InitThrew db_was_set e =>
               {| inner := set_error ("Error al inicializar Firebase: " +:+ message e)
                             (if db_was_set then set_db (inner c) else inner c);
                  isAuthReady := isAuthReady c; loading := false; orders := orders c;
                  mounted := true; auth_observer := false; listening := listening c;
                  unhandled := unhandled c |}
           | InitDone =>
               {| inner := set_db (inner c);
                  isAuthReady := isAuthReady c; loading := loading c; orders := orders c;
                  mounted := true; auth_observer := true; listening := listening c;
                  unhandled := unhandled c |}
           end
  | AuthStateChanged user signIn =>
      if negb (auth_observer c) then None else
      match user, signIn with
      | Some uid, _ =>
          if String.eqb uid "" then None else
          Some {| inner := set_userId uid (inner c);
                  isAuthReady := true; loading := loading c; orders := orders c;
                  mounted := mounted c; auth_observer := auth_observer c;
                  listening := listening c; unhandled := unhandled c |}
      | None, None =>
          Some {| inner := inner c;
                  isAuthReady := true; loading := loading c; orders := orders c;
                  mounted := mounted c; auth_observer := auth_observer c;
                  listening := listening c; unhandled := unhandled c |}
      | None, Some e =>
          Some {| inner := inner c;
                  isAuthReady := isAuthReady c; loading := loading c; orders := orders c;
                  mounted := mounted c; auth_observer := auth_observer c;
                  listening := listening c; unhandled := unhandled c ++ [e] |}
      end
  | ListenersAttached =>
      if (isAuthReady c && session_ready (inner c))%bool
      then Some {| inner := inner c;
                   isAuthReady := isAuthReady c; loading := loading c; orders := orders c;
                   mounted := mounted c; auth_observer := auth_observer c;
                   listening := true; unhandled := unhandled c |}
      else None
  | MarketplacesSnapshot docs =>
      if listening c
      then Some (with_inner
                   (set_linkedMarketplaces
                      (map (fun d => doc_data d ∪ {["id" := VStr (doc_id d)]}) docs)) c)
      else None
  | OrdersSnapshot d =>
      if listening c
      then Some {| inner := inner c;
                   isAuthReady := isAuthReady c; loading := false;
                   orders := deliver (orders c) d;
                   mounted := mounted c; auth_observer := auth_observer c;
                   listening := listening c; unhandled := unhandled c |}
      else None
  | OrdersError e =>
      if listening c
      then Some {| inner := set_error ("Error al cargar pedidos: " +:+ message e) (inner c);
                   isAuthReady := isAuthReady c; loading := false; orders := orders c;
                   mounted := mounted c; auth_observer := auth_observer c;
                   listening := listening c; unhandled := unhandled c |}
      else None
  | StatusSelected orderId option_index now =>
      if has_card c orderId then
        target ← STATUS_OPTIONS !! option_index;
        Some (run_handler
                (statusSelect_onChange appId sdk doc_refused now orderId target) c)
      else None
  | DeleteClicked orderId confirmed =>
      if has_card c orderId
      then Some (run_handler (handleDeleteOrder appId sdk doc_refused confirmed orderId) c)
      else None
  | FieldChanged name value =>
      match render c, AddOrderForm (inner c) with
      | Dashboard, OrderForm _ => Some (with_inner (handleChange name value) c)
      | _, _ => None
      end
  | FormSubmitted now random =>
      match render c with
      | Dashboard =>
          Some (with_inner (fun st => (submitOrder appId sdk parseFloat now random st).2) c)
      | _ => None
      end
  end.

(** A run of events from the first render on. *)
Definition run (es : list event) : option component :=
  foldl (fun oc e => oc ≫= step e) (Some initial) es.

End Lifecycle.


(** ** The marketplace collection *)

(** A user id inside a template literal: [null] prints as "null". *)
Definition template_userId (st : state) : string := default "null" (userId st).

(** [getMarketplaceCollectionRef]: the integrations are kept per user. *)
Definition getMarketplaceCollectionRef (appId : string) (st : state)
  : option CollectionReference :=
  if session_ready st
  then Some {| path := "artifacts/" +:+ appId +:+ "/users/" +:+ template_userId st
                       +:+ "/marketplace_integrations" |}
  else None.


(** ** The private-collection dashboards

    The two earlier [App] components of the file keep one orders collection
    per user, [artifacts/<appId>/users/<userId>/orders], and move an order
    through Pending, Processing, Shipped and Delivered with one button per
    card. Their records are plain objects [{ id: doc.id, ...doc.data() }]. *)

Module Private.

Definition COLLECTION_NAME : string := "orders".

(** The [switch] of [OrderCard]: the status the button sends. *)
Definition nextStatus (status : option jsvalue) : string :=
  match status with
  | Some (VStr s) =>
      if String.eqb s "Pending" then "Processing"
      else if String.eqb s "Processing" then "Shipped"
      else if String.eqb s "Shipped" then "Delivered"
      else if String.eqb s "Delivered" then "Delivered"
      else "Processing"
  | _ => "Processing"
  end.

(** [order.status !== 'Delivered']: whether the card has the button. *)
Definition canAdvanceStatus (status : option jsvalue) : bool :=
  match status with
  | Some (VStr s) => negb (String.eqb s "Delivered")
  | _ => true
  end.

(** The status of an order after one use of its card: the button's status
    when the card has the button, the same status when it has none. *)
Definition after_click (status : option jsvalue) : option jsvalue :=
  if canAdvanceStatus status then Some (VStr (nextStatus status)) else status.

Definition initial_newOrder : gmap string jsvalue :=
  {[ "customerName" := VStr ""; "item" := VStr ""; "quantity" := VNum 1;
     "status" := VStr "Pending" ]}.

Section Handlers.
(** The application id, the SDK's answers, [Number] and
    [Date.prototype.toISOString]. *)
Variable appId : string.
Variable sdk : sdk_call -> option exn.
Variable doc_refused : string -> string -> option exn.
Variable Number : string -> jsvalue.
Variable toISOString : Z -> string.

Definition await (c : sdk_call) : M unit :=
  fun st => (match sdk c with None => Ok tt | Some e => Throw e end, record_call c st).

(** The template literal of the private collection path. *)
Definition ordersPath (st : state) : string :=
  "artifacts/" +:+ appId +:+ "/users/" +:+ template_userId st +:+ "/" +:+ COLLECTION_NAME.

(** [doc(db, path, id)] with a [db] that is set. *)
Definition docRef (p id : string) : M string :=
  match doc_refused p id with
  | None => mret p
  | Some e => throw e
  end.

(** [setNewOrder(prev => ({ ...prev, [name]: name === 'quantity' ? Number(value) : value }))];
    the form being filled is the [formData] cell of the state. *)
Definition handleInputChange (name value : string) (st : state) : state :=
  set_formData
    (<[name := if String.eqb name "quantity" then Number value else VStr value]>
       (formData st)) st.

(** The second dashboard (its guards read [db] and [userId]). The two clock
    readings are those of the two [new Date()]. *)
Definition addOrder (now1 now2 : Z) : M unit :=
  fun st =>
    if (negb (session_ready st)
        || negb (truthy (formData st !! "customerName"))
        || negb (truthy (formData st !! "item")))%bool
    then (Ok tt, st)
    else
      try_catch
        (await (AddDoc (Some {| path := ordersPath st |})
                  (<["updatedAt" := VStr (toISOString now2)]>
                     (<["createdAt" := VStr (toISOString now1)]> (formData st))));;
         modify (set_formData initial_newOrder))
        (fun _ => modify (set_error "Error al guardar la orden."))
        st.

Definition updateOrderStatus (now : Z) (id newStatus : string) : M unit :=
  fun st =>
    if negb (session_ready st) then (Ok tt, st)
    else
      (p ← docRef (ordersPath st) id;
       try_catch
         (await (UpdateDoc p id
                   {[ "status" := VStr newStatus;
                      "updatedAt" := VStr (toISOString now) ]}))
         (fun _ => modify (set_error "Error al actualizar el estado de la orden.")))
        st.

Definition deleteOrder (id : string) : M unit :=
  fun st =>
    if negb (session_ready st) then (Ok tt, st)
    else
      (p ← docRef (ordersPath st) id;
       try_catch
         (await (DeleteDoc p id))
         (fun _ => modify (set_error "Error al eliminar la orden.")))
        st.

(** A use of the card of the order [id] whose status is [status]: the button
    [onClick={() => updateOrderStatus(order.id, nextStatus)}] is there only
    when [canAdvanceStatus]. *)
Definition card_click (now : Z) (id : string) (status : option jsvalue) : M unit :=
  if canAdvanceStatus status
  then updateOrderStatus now id (nextStatus status)
  else mret tt.

End Handlers.

End Private.

(** The first dashboard guards its handlers with [checkDbStatus], which reads
    the [isFirebaseReady] flag only, and reports failures with [alert]. *)
Module Offline.

Record offline_state :=
  { base : state;
    isFirebaseReady : bool;
    alerts : list string }.

Definition alert (msg : string) (os : offline_state) : offline_state :=
  {| base := base os; isFirebaseReady := isFirebaseReady os;
     alerts := alerts os ++ [msg] |}.

Definition with_base (st : state) (os : offline_state) : offline_state :=
  {| base := st; isFirebaseReady := isFirebaseReady os; alerts := alerts os |}.

Definition checkDbStatus (os : offline_state) : bool * offline_state :=
  if isFirebaseReady os then (true, os)
  else (false,
        alert "FUNCIÓN BLOQUEADA: La base de datos no está disponible. Este modo ocurre al ejecutar el APK sin configurar Firebase." os).

Section Handlers.
Variable appId : string.
Variable sdk : sdk_call -> option exn.
Variable doc_refused : string -> string -> option exn.
(** What [doc(db, ...)] throws when [db] is null. *)
Variable null_db : exn.
Variable toISOString : Z -> string.

Definition addOrder (now1 now2 : Z) (os : offline_state) : outcome unit * offline_state :=
  let '(ok, os1) := checkDbStatus os in
  let st := base os1 in
  if (negb ok
      || negb (truthy (formData st !! "customerName"))
      || negb (truthy (formData st !! "item")))%bool
  then (Ok tt, os1)
  else
    match db st with
    | None => (Ok tt, alert "Error al guardar la orden. Ver consola." os1)
    | Some _ =>
        let '(r, st') :=
          (Private.await sdk
             (AddDoc (Some {| path := Private.ordersPath appId st |})
                (<["updatedAt" := VStr (toISOString now2)]>
                   (<["createdAt" := VStr (toISOString now1)]> (formData st))));;
           modify (set_formData Private.initial_newOrder)) st in
        match r with
        | Ok _ => (Ok tt, with_base st' os1)
        | Throw _ =>
            (Ok tt, alert "Error al guardar la orden. Ver consola." (with_base st' os1))
        end
    end.

Definition updateOrderStatus (now : Z) (id newStatus : string) (os : offline_state)
  : outcome unit * offline_state :=
  let '(ok, os1) := checkDbStatus os in
  let st := base os1 in
  if negb ok then (Ok tt, os1)
  else
    match db st with
    | None => (Throw null_db, os1)
    | Some _ =>
        match Private.docRef doc_refused (Private.ordersPath appId st) id st with
        | (Throw e, _) => (Throw e, os1)
        | (Ok p, _) =>
            let '(r, st') :=
              Private.await sdk
                (UpdateDoc p id {[ "status" := VStr newStatus;
                                   "updatedAt" := VStr (toISOString now) ]}) st in
            match r with
            | Ok _ => (Ok tt, with_base st' os1)
            | Throw _ =>
                (Ok tt, alert "Error al actualizar el estado de la orden. Ver consola."
                          (with_base st' os1))
            end
        end
    end.

Definition deleteOrder (id : string) (os : offline_state) : outcome unit * offline_state :=
  let '(ok, os1) := checkDbStatus os in
  let st := base os1 in
  if negb ok then (Ok tt, os1)
  else
    match db st with
    | None => (Throw null_db, os1)
    | Some _ =>
        match Private.docRef doc_refused (Private.ordersPath appId st) id st with
        | (Throw e, _) => (Throw e, os1)
        | (Ok p, _) =>
            let '(r, st') := Private.await sdk (DeleteDoc p id) st in
            match r with
            | Ok _ => (Ok tt, with_base st' os1)
            | Throw _ =>
                (Ok tt, alert "Error al eliminar la orden. Ver consola." (with_base st' os1))
            end
        end
    end.

End Handlers.

End Offline.

(** * Vocabulary of the properties *)

Definition valid_date (o : order) : Prop := is_Some (order_date o).

(** [later_first x y]: both dates are valid and [x] is at least as recent. *)
Definition later_first (x y : order) : Prop :=
  exists tx ty, order_date x = Some tx /\ order_date y = Some ty /\ ty <= tx.

Definition has_date (d : Date) (o : order) : bool := bool_decide (order_date o = d).

(** The records steps 1 and 2 of [filteredOrders] keep, in cache order
    (what is handed to [sort]). *)
Definition selection (orders : list order) (filter searchTerm : string)
  : outcome (list order) :=
  let kept := if String.eqb filter "all" then orders
              else List.filter (fun o => status_is o filter) orders in
  if String.eqb searchTerm "" then Ok kept
  else filter_throwing (matches_search (toLowerCase searchTerm)) kept.



(** Records of equal date standing in id order, ascending ([up]) or
    descending. *)
Definition ties_by_id (up : bool) (v : list order) : Prop :=
  forall i j x y, (i < j)%nat -> v !! i = Some x -> v !! j = Some y ->
    order_date x = order_date y ->
    exists a b, get x "id" = Some (VStr a) /\ get y "id" = Some (VStr b) /\
                (if up then String.leb a b else String.leb b a) = true.

(** [x] and [y] have string ids and that of [x] is not the greater. *)
Definition id_le (x y : order) : Prop :=
  exists a b, get x "id" = Some (VStr a) /\ get y "id" = Some (VStr b) /\
              String.leb a b = true.

(** A status that is one of [STATUS_OPTIONS]. *)
Definition known_status (o : order) : bool :=
  existsb (fun s => status_is o (value s)) STATUS_OPTIONS.

(** The badges of the five status options added up. *)
Definition sum_status_counts (orders : list order) : nat :=
  list_sum (map (status_count orders) STATUS_OPTIONS).



(** Sample data for the concrete evaluations below. *)
Module Sample.

Definition at_1000 : nat -> Z := fun _ => 1000.

(** A document without [order_date]. *)
Definition doc_undated : doc :=
  Doc "a" {[ "order_id" := VStr "ML-1"; "customer_name" := VStr "Ana";
             "marketplace" := VStr "ML"; "status" := VStr "new" ]}.

(** A document dated two seconds after the epoch. *)
Definition doc_dated : doc :=
  Doc "b" {[ "order_id" := VStr "ML-2"; "customer_name" := VStr "Beto";
             "marketplace" := VStr "ML"; "status" := VStr "shipped";
             "order_date" := VTimestamp 2 500 ]}.

(** A document whose data has a field called [id]. *)
Definition doc_with_id_field : doc :=
  Doc "c" {[ "id" := VStr "zzz"; "status" := VStr "new";
             "order_date" := VTimestamp 1 0 ]}.


(** A document without [order_id], and one with a status that is no option. *)
Definition doc_no_order_id : doc :=
  Doc "d" {[ "customer_name" := VStr "Ana"; "marketplace" := VStr "ML";
             "status" := VStr "new"; "order_date" := VTimestamp 3 0 ]}.
Definition doc_pending : doc :=
  Doc "e" {[ "order_id" := VStr "X-1"; "customer_name" := VStr "Eva";
             "marketplace" := VStr "ML"; "status" := VStr "Pending";
             "order_date" := VTimestamp 4 0 ]}.

(** A session that is ready, with one linked marketplace and a filled form. *)
Definition ready : state :=
  {| db := Some FirestoreInstance; userId := Some "user-1";
     linkedMarketplaces := [ {[ "id" := VStr "m1"; "marketplace" := VStr "ML" ]} ];
     error := None;
     formData := {[ "order_id" := VStr "ML-9"; "customer_name" := VStr "Ana";
                    "marketplace" := VStr "ML"; "amount" := VStr "10";
                    "status" := VStr "new" ]};
     isAdding := false; trace := [] |}.

(** The same before [db] is set, and with no linked marketplace. *)
Definition not_ready : state :=
  {| db := None; userId := userId ready; linkedMarketplaces := linkedMarketplaces ready;
     error := None; formData := formData ready; isAdding := false; trace := [] |}.
Definition no_marketplace : state :=
  {| db := db ready; userId := userId ready; linkedMarketplaces := [];
     error := None; formData := formData ready; isAdding := false; trace := [] |}.

(** An SDK whose calls all succeed, and a stand-in for [parseFloat]. *)
Definition sdk_ok : sdk_call -> option exn := fun _ => None.
Definition parse_ten : option jsvalue -> jsvalue := fun _ => VNum 10.
Definition doc_ok : string -> string -> option exn := fun _ _ => None.

End Sample.



(** The record passes step 1 of [filteredOrders]. *)
Definition passes_status (filter : string) (o : order) : bool :=
  (String.eqb filter "all" || status_is o filter)%bool.





(** The latest orders snapshot among the events of a run. *)
Definition last_snapshot (es : list event) : option delivery :=
  foldl (fun acc e => match e with OrdersSnapshot d => Some d | _ => acc end) None es.

(** An error message is set, and it is not the empty string. *)
Definition error_shown (st : state) : Prop :=
  exists msg, error st = Some msg /\ msg <> "".


(** Every stored error message is a non-empty string. *)
Definition error_ok (st : state) : Prop :=
  forall msg, error st = Some msg -> msg <> "".







(** The collection a call addresses. *)
Definition call_path (c : sdk_call) : option string :=
  match c with
  | AddDoc ref _ => path <$> ref
  | UpdateDoc p _ _ | DeleteDoc p _ => Some p
  end.

(** The calls a handler run adds to the trace [before]. *)
Definition adds_calls (before after calls : list sdk_call) : Prop :=
  after = (before ++ calls)%list.


(** The message of the first dashboard's blocked operations. *)
Definition blocked_message : string :=
  "FUNCIÓN BLOQUEADA: La base de datos no está disponible. Este modo ocurre al ejecutar el APK sin configurar Firebase.".

(** A state of the first dashboard after sign-in failed: Firebase is marked
    ready, the database handle is set, no user is signed in, and the form
    holds a customer name and an item. *)
Definition sample_signed_out : Offline.offline_state :=
  {| Offline.base :=
       {| db := db Sample.ready; userId := None; linkedMarketplaces := [];
          error := None;
          formData := <["customerName" := VStr "Ana"]>
                        (<["item" := VStr "Mesa"]> Private.initial_newOrder);
          isAdding := false; trace := [] |};
     Offline.isFirebaseReady := true;
     Offline.alerts := [] |}.

(** * Properties *)

(** ** The sort *)

Section SortFacts.
Context {A : Type} (comparefn : A -> A -> option Z).

Local Abbreviation after := (goes_after comparefn).
Local Abbreviation ins := (sort_insert comparefn).

Lemma sort_insert_perm x l : Permutation (ins x l) (x :: l).
Proof.
  induction l as [|y l IH]; simpl; [reflexivity|].
  destruct (after x y); [|reflexivity].
  rewrite IH. apply perm_swap.
Qed.

Lemma sort_perm l : Permutation (sort comparefn l) l.
Proof.
  induction l as [|x l IH]; simpl; [constructor|].
  rewrite sort_insert_perm. now constructor.
Qed.

Lemma sort_fixes_settled l : Sorted (settled comparefn) l -> sort comparefn l = l.
Proof.
  induction 1 as [|x l Hl IH Hx]; simpl; [reflexivity|].
  rewrite IH. destruct Hx as [|y l' Hxy]; simpl; [reflexivity|].
  unfold settled in Hxy. now rewrite Hxy.
Qed.

(** The comparator never asks for both swaps of a pair. *)
Hypothesis after_asym : forall x y, after x y = true -> after y x = false.

Lemma sort_insert_keeps_settled x l : Sorted (settled comparefn) l -> Sorted (settled comparefn) (ins x l).
Proof.
  induction 1 as [|y l Hl IH Hy]; simpl.
  - repeat constructor.
  - destruct (after x y) eqn:Hxy.
    + constructor; [assumption|].
      destruct Hy as [|z l' Hyz]; simpl.
      * constructor. now apply after_asym.
      * destruct (after x z); constructor; [assumption|now apply after_asym].
    + constructor; [now constructor|]. now constructor.
Qed.

Lemma sort_settled l : Sorted (settled comparefn) (sort comparefn l).
Proof.
  induction l as [|x l IH]; simpl; [constructor|].
  now apply sort_insert_keeps_settled.
Qed.

Lemma sort_idempotent l : sort comparefn (sort comparefn l) = sort comparefn l.
Proof. apply sort_fixes_settled, sort_settled. Qed.

(** Stability: a swap only ever separates elements that a class [p] of
    mutually tied elements cannot both contain. *)
Lemma sort_stable (p : A -> bool) l :
  (forall x y, p x = true -> p y = true -> after x y = false) ->
  List.filter p (sort comparefn l) = List.filter p l.
Proof.
  intros Htie.
  assert (Hins : forall x l0, List.filter p (ins x l0) = List.filter p (x :: l0)).
  { intros x l0. induction l0 as [|y l0 IH]; [reflexivity|].
    simpl. destruct (after x y) eqn:Hxy; [|reflexivity].
    simpl. simpl in IH. rewrite IH.
    destruct (p x) eqn:Hpx, (p y) eqn:Hpy; try reflexivity.
    rewrite (Htie x y Hpx Hpy) in Hxy. discriminate. }
  induction l as [|x l IH]; [reflexivity|].
  simpl sort. rewrite Hins. simpl. now rewrite IH.
Qed.
End SortFacts.

(** ** Order dates *)

Lemma by_date_desc_after x y :
  goes_after by_date_desc x y = true <->
  exists tx ty, order_date x = Some tx /\ order_date y = Some ty /\ tx < ty.
Proof.
  unfold goes_after, by_date_desc.
  destruct (order_date y) as [ty|], (order_date x) as [tx|]; split;
    try discriminate; try (intros (? & ? & ? & ? & ?); discriminate).
  - intros H. apply Z.ltb_lt in H. exists tx, ty. repeat split; lia.
  - intros (tx' & ty' & [= <-] & [= <-] & H). apply Z.ltb_lt. lia.
Qed.

Lemma by_date_desc_asym x y :
  goes_after by_date_desc x y = true -> goes_after by_date_desc y x = false.
Proof.
  intros (tx & ty & Hx & Hy & Hlt)%by_date_desc_after.
  destruct (goes_after by_date_desc y x) eqn:H; [|reflexivity].
  apply by_date_desc_after in H as (ty' & tx' & Hy' & Hx' & Hlt').
  rewrite Hx in Hx'. rewrite Hy in Hy'. simplify_eq. lia.
Qed.

Lemma by_date_desc_tie d x y :
  has_date d x = true -> has_date d y = true -> goes_after by_date_desc x y = false.
Proof.
  unfold has_date. intros Hx%bool_decide_eq_true Hy%bool_decide_eq_true.
  destruct (goes_after by_date_desc x y) eqn:H; [|reflexivity].
  apply by_date_desc_after in H as (tx & ty & Hx' & Hy' & Hlt).
  rewrite Hx in Hx'. rewrite Hy in Hy'. simplify_eq. lia.
Qed.

Lemma settled_later_first x y :
  valid_date x -> valid_date y -> settled by_date_desc x y -> later_first x y.
Proof.
  intros [tx Hx] [ty Hy] H. exists tx, ty. repeat split; try assumption.
  destruct (Z.le_gt_cases ty tx) as [|Hlt]; [assumption|].
  unfold settled in H. rewrite (proj2 (by_date_desc_after x y)) in H; [discriminate|].
  now exists tx, ty.
Qed.

Lemma later_first_trans : Transitive later_first.
Proof.
  intros x y z (tx & ty & Hx & Hy & Hxy) (ty' & tz & Hy' & Hz & Hyz).
  rewrite Hy in Hy'. simplify_eq. exists tx, tz. repeat split; try assumption. lia.
Qed.

Lemma settled_sorted_later_first l :
  Forall valid_date l -> Sorted (settled by_date_desc) l -> StronglySorted later_first l.
Proof.
  intros Hv Hs. apply Sorted_StronglySorted; [exact later_first_trans|].
  induction Hs as [|x l Hl IH Hx]; [constructor|].
  apply Forall_cons_1 in Hv as [Hvx Hvl].
  constructor; [now apply IH|].
  destruct Hx as [|y l' Hxy]; constructor.
  apply Forall_cons_1 in Hvl as [Hvy _]. now apply settled_later_first.
Qed.

(** Sorting valid dates puts the most recent first. *)
Lemma sort_by_date_sorted l :
  Forall valid_date l -> StronglySorted later_first (sort by_date_desc l).
Proof.
  intros Hv. apply settled_sorted_later_first.
  - eapply Permutation_Forall; [|exact Hv]. symmetry. apply sort_perm.
  - apply sort_settled, by_date_desc_asym.
Qed.

(** In a list sorted most recent first, a strictly more recent element stands
    strictly earlier. *)
Lemma later_first_position (v : list order) (p q : nat) (x y : order) tx ty :
  StronglySorted later_first v ->
  v !! p = Some x -> v !! q = Some y ->
  order_date x = Some tx -> order_date y = Some ty -> tx < ty ->
  (q < p)%nat.
Proof.
  intros Hs. revert p q. induction Hs as [|z l Hl IH Hz]; intros p q Hp Hq Hx Hy Hlt.
  - discriminate.
  - destruct p as [|p], q as [|q]; simpl in *.
    + simplify_eq. lia.
    + simplify_eq. apply list_elem_of_lookup_2 in Hq.
      rewrite Forall_forall in Hz. specialize (Hz _ Hq).
      destruct Hz as (tx' & ty' & Hx' & Hy' & Hle). rewrite Hx in Hx'. rewrite Hy in Hy'.
      simplify_eq. lia.
    + lia.
    + specialize (IH p q Hp Hq Hx Hy Hlt). lia.
Qed.

(** A list sorted most recent first is fixed by the order within each class
    of equal dates. *)
Lemma has_date_own o : has_date (order_date o) o = true.
Proof. unfold has_date. now apply bool_decide_eq_true. Qed.

Lemma has_date_true d o : has_date d o = true -> order_date o = d.
Proof. unfold has_date. now intros H%bool_decide_eq_true. Qed.

Lemma in_date_class (d : Date) (o : order) (l : list order) :
  o ∈ List.filter (has_date d) l -> o ∈ l /\ order_date o = d.
Proof.
  rewrite list_elem_of_In, filter_In, <- list_elem_of_In.
  intros [H1 H2]. split; [assumption|now apply has_date_true].
Qed.

Lemma stable_sorted_unique (l1 l2 : list order) :
  StronglySorted later_first l1 -> StronglySorted later_first l2 ->
  (forall d, List.filter (has_date d) l1 = List.filter (has_date d) l2) ->
  l1 = l2.
Proof.
  intros H1. revert l2. induction H1 as [|x l1 Hs1 IH Hx]; intros l2 H2 Hcls.
  - destruct l2 as [|y l2]; [reflexivity|].
    specialize (Hcls (order_date y)). simpl in Hcls.
    rewrite has_date_own in Hcls. discriminate.
  - destruct H2 as [|y l2 Hs2 Hy].
    { specialize (Hcls (order_date x)). simpl in Hcls.
      rewrite has_date_own in Hcls. discriminate. }
    assert (Hdate : order_date y = order_date x).
    { destruct (decide (order_date y = order_date x)) as [|Hne]; [assumption|].
      assert (Hyx : later_first x y).
      { pose proof (Hcls (order_date y)) as Hc. simpl in Hc.
        rewrite has_date_own in Hc.
        assert (Hf : has_date (order_date y) x = false).
        { apply Is_true_false. intros H%Is_true_true. apply has_date_true in H. congruence. }
        rewrite Hf in Hc.
        assert (Hin : y ∈ List.filter (has_date (order_date y)) l1)
          by (rewrite Hc; left).
        apply in_date_class in Hin as [Hin _].
        rewrite Forall_forall in Hx. now apply Hx. }
      assert (Hxy : later_first y x).
      { pose proof (Hcls (order_date x)) as Hc. simpl in Hc.
        rewrite has_date_own in Hc.
        assert (Hf : has_date (order_date x) y = false).
        { apply Is_true_false. intros H%Is_true_true. apply has_date_true in H. congruence. }
        rewrite Hf in Hc.
        assert (Hin : x ∈ List.filter (has_date (order_date x)) l2)
          by (rewrite <- Hc; left).
        apply in_date_class in Hin as [Hin _].
        rewrite Forall_forall in Hy. now apply Hy. }
      destruct Hyx as (tx & ty & Ex & Ey & Hle1), Hxy as (ty' & tx' & Ey' & Ex' & Hle2).
      rewrite Ex in Ex'. rewrite Ey in Ey'. simplify_eq.
      exfalso. apply Hne. rewrite Ex, Ey. f_equal. lia. }
    assert (Hhead : y = x).
    { pose proof (Hcls (order_date x)) as Hc. simpl in Hc.
      rewrite has_date_own in Hc. rewrite <- Hdate in Hc at 2.
      rewrite has_date_own in Hc. congruence. }
    subst y. f_equal. apply IH; [assumption|].
    intros d. specialize (Hcls d). simpl in Hcls.
    destruct (has_date d x); congruence.
Qed.

(** Any rearrangement that is sorted most recent first and keeps the order
    within each date is the list [sort] returns: for valid dates the result
    does not depend on how the engine sorts. *)
Lemma sort_by_date_characterised (l l' : list order) :
  Forall valid_date l ->
  StronglySorted later_first l' ->
  (forall d, List.filter (has_date d) l' = List.filter (has_date d) l) ->
  l' = sort by_date_desc l.
Proof.
  intros Hv Hs Hcls. apply stable_sorted_unique; [assumption| |].
  - now apply sort_by_date_sorted.
  - intros d. rewrite Hcls. symmetry. apply sort_stable, by_date_desc_tie.
Qed.

(** ** The derived view *)


Lemma view_filteredOrders orders filter searchTerm :
  view (filteredOrders orders filter searchTerm) =
  (l ← selection orders filter searchTerm; Ok (sort by_date_desc l)).
Proof.
  unfold view, filteredOrders, selection.
  destruct (String.eqb filter "all"), (String.eqb searchTerm ""); simpl;
    try reflexivity;
    match goal with |- context [filter_throwing ?p ?l] =>
      destruct (filter_throwing p l); reflexivity end.
Qed.

(** The [orders] array after an evaluation: sorted in place exactly when
    [currentOrders] was the state array itself. *)
Lemma orders_after_filteredOrders orders filter searchTerm :
  orders_after (filteredOrders orders filter searchTerm) =
  if (String.eqb filter "all" && String.eqb searchTerm "")%bool
  then sort by_date_desc orders else orders.
Proof.
  unfold filteredOrders.
  destruct (String.eqb filter "all"), (String.eqb searchTerm ""); simpl;
    try reflexivity;
    match goal with |- context [filter_throwing ?p ?l] =>
      destruct (filter_throwing p l); reflexivity end.
Qed.

Lemma filter_throwing_sublist {A} (p : A -> outcome bool) l l' :
  filter_throwing p l = Ok l' -> sublist l' l.
Proof.
  revert l'. induction l as [|x l IH]; simpl; intros l' H.
  - injection H as <-. constructor.
  - destruct (p x) as [b|]; simpl in H; [|discriminate].
    destruct (filter_throwing p l) as [r|]; simpl in H; [|discriminate].
    injection H as <-. destruct b; [apply sublist_skip|apply sublist_cons]; now apply IH.
Qed.

Lemma filter_sublist_of {A} (p : A -> bool) l : sublist (List.filter p l) l.
Proof.
  induction l as [|x l IH]; simpl; [constructor|].
  destruct (p x); [now apply sublist_skip|now apply sublist_cons].
Qed.

Lemma selection_sublist orders filter searchTerm l :
  selection orders filter searchTerm = Ok l -> sublist l orders.
Proof.
  unfold selection. intros H.
  assert (Hk : sublist (if String.eqb filter "all" then orders
                        else List.filter (fun o => status_is o filter) orders) orders).
  { destruct (String.eqb filter "all"); [reflexivity|apply filter_sublist_of]. }
  destruct (String.eqb searchTerm "").
  - now injection H as <-.
  - etransitivity; [|exact Hk]. eapply filter_throwing_sublist, H.
Qed.

(** Re-evaluating on the array an evaluation left behind gives the same
    sequence: the in-place sort is not visible in the view itself. *)
Lemma filteredOrders_rerun orders filter searchTerm :
  String.eqb filter "all" = true -> String.eqb searchTerm "" = true ->
  view (filteredOrders (orders_after (filteredOrders orders filter searchTerm))
                       filter searchTerm)
  = view (filteredOrders orders filter searchTerm).
Proof.
  intros Hf Hs. rewrite orders_after_filteredOrders, !view_filteredOrders.
  unfold selection. rewrite Hf, Hs. simpl.
  f_equal. apply sort_idempotent, by_date_desc_asym.
Qed.

Lemma orders_after_permutation orders filter searchTerm :
  Permutation (orders_after (filteredOrders orders filter searchTerm)) orders.
Proof.
  rewrite orders_after_filteredOrders.
  destruct (_ && _)%bool; [apply sort_perm|reflexivity].
Qed.

(** ** The orders cache *)


Lemma onSnapshot_orders_lookup clock docs i d :
  docs !! i = Some d -> onSnapshot_orders clock docs !! i = Some (toOrder (clock i) d).
Proof.
  intros H. unfold onSnapshot_orders. rewrite list_lookup_imap, H. reflexivity.
Qed.


Lemma toOrder_get now d k :
  k <> "order_date" ->
  get (toOrder now d) k = (doc_data d ∪ {["id" := VStr (doc_id d)]}) !! k.
Proof.
  intros Hk. unfold get. destruct (String.eqb_spec k "order_date") as [->|_]; [done|].
  simpl. now rewrite lookup_delete_ne.
Qed.


Lemma toOrder_get_id now d :
  doc_data d !! "id" = None -> get (toOrder now d) "id" = Some (VStr (doc_id d)).
Proof.
  intros H. rewrite toOrder_get by discriminate.
  rewrite lookup_union_r by assumption. apply lookup_singleton_eq.
Qed.

(** A data field called [id] takes the place of the document id. *)
Lemma toOrder_id_field_wins now d v :
  doc_data d !! "id" = Some v -> get (toOrder now d) "id" = Some v.
Proof.
  intros H. rewrite toOrder_get by discriminate. now apply lookup_union_Some_l.
Qed.


(** The first property written by the snapshot callback is [id: doc.id], and
    the spread of the data comes after it: the document [c], whose data has a
    field [id], is cached under that field's value. *)
Lemma id_field_shadows_document_id :
  get (toOrder 1000 Sample.doc_with_id_field) "id" = Some (VStr "zzz").
Proof. reflexivity. Qed.



(** ** Order dates in the cache and in the view *)

Lemma toOrder_undated now d :
  doc_data d !! "order_date" = None -> order_date (toOrder now d) = new_Date now.
Proof. intros H. unfold toOrder. simpl. now rewrite H. Qed.

Lemma toOrder_timestamp now d s n :
  doc_data d !! "order_date" = Some (VTimestamp s n) ->
  order_date (toOrder now d) = new_Date (s * 1000).
Proof. intros H. unfold toOrder. simpl. now rewrite H. Qed.

(** A truthy [order_date] that is no Timestamp gives an Invalid Date. *)
Lemma toOrder_not_a_timestamp now d v :
  doc_data d !! "order_date" = Some v -> truthy (Some v) = true ->
  seconds_times_1000 v = None ->
  order_date (toOrder now d) = None.
Proof. intros H Ht Hs. unfold toOrder. simpl. rewrite H, Ht. simpl. now rewrite Hs. Qed.

Lemma new_Date_valid ms t : new_Date ms = Some t -> t = ms.
Proof. unfold new_Date. destruct (_ <=? _); congruence. Qed.

Lemma view_sorted orders filter searchTerm v :
  Forall valid_date orders ->
  view (filteredOrders orders filter searchTerm) = Ok v ->
  StronglySorted later_first v.
Proof.
  intros Hv. rewrite view_filteredOrders.
  destruct (selection orders filter searchTerm) as [l|] eqn:Hsel; [|discriminate].
  simpl. intros [= <-]. apply sort_by_date_sorted.
  apply selection_sublist in Hsel. eapply Forall_forall. intros x Hx.
  rewrite Forall_forall in Hv. apply Hv. eapply elem_of_sublist; eassumption.
Qed.

(** C10, as stated, fails in its last part: a record without timestamp does
    not always sort as the most recent. Processed at clock reading 1000, the
    undated document [a] gets the date 1000 and stands behind the document [b]
    whose timestamp (2 s, that is 2000 ms) lies after the processing time. *)
Lemma undated_record_not_always_first :
  Sample.doc_undated.(doc_data) !! "order_date" = None /\
  exists x y,
    view (filteredOrders
            (onSnapshot_orders Sample.at_1000 [Sample.doc_undated; Sample.doc_dated])
            "all" "") = Ok [x; y] /\
    get x "id" = Some (VStr "b") /\ order_date x = Some 2000 /\
    get y "id" = Some (VStr "a") /\ order_date y = Some 1000.
Proof.
  split; [reflexivity|].
  eexists _, _. split; [vm_compute; reflexivity|].
  repeat split; reflexivity.
Qed.

(** C10, amended: a delivered record without [order_date] is stored with the
    clock reading taken while it is processed; a record with a Timestamp is
    stored with the Date of its seconds times 1000; and in every derived view
    of a cache whose dates are all valid, the undated record stands before
    every record dated strictly earlier than that clock reading. *)
Theorem undated_record_gets_processing_time
  (clock : nat -> Z) (docs : list doc) (i : nat) (d : doc) :
  docs !! i = Some d ->
  onSnapshot_orders clock docs !! i = Some (toOrder (clock i) d) /\
  (doc_data d !! "order_date" = None ->
     order_date (toOrder (clock i) d) = new_Date (clock i) /\
     forall filter searchTerm v q p y ty,
       Forall valid_date (onSnapshot_orders clock docs) ->
       view (filteredOrders (onSnapshot_orders clock docs) filter searchTerm) = Ok v ->
       v !! q = Some (toOrder (clock i) d) -> v !! p = Some y ->
       order_date y = Some ty -> ty < clock i ->
       (q < p)%nat) /\
  (forall s n, doc_data d !! "order_date" = Some (VTimestamp s n) ->
     order_date (toOrder (clock i) d) = new_Date (s * 1000)).
Proof.
  intros Hi. split; [now apply onSnapshot_orders_lookup|]. split.
  - intros Hnone. pose proof (toOrder_undated (clock i) d Hnone) as Hdate.
    split; [exact Hdate|].
    intros filter searchTerm v q p y ty Hvalid Hview Hq Hp Hy Hlt.
    assert (Hx : order_date (toOrder (clock i) d) = Some (clock i)).
    { rewrite Forall_forall in Hvalid.
      destruct (Hvalid (toOrder (clock i) d)) as [t Ht].
      - eapply list_elem_of_lookup_2. now apply onSnapshot_orders_lookup.
      - rewrite Ht. f_equal. rewrite Hdate in Ht. now apply new_Date_valid in Ht. }
    eapply later_first_position; [eapply view_sorted; eassumption| | | | |];
      [exact Hp|exact Hq|exact Hy|exact Hx|exact Hlt].
  - intros s n. apply toOrder_timestamp.
Qed.

Lemma undated_record_gets_processing_time_witness :
  order_date (toOrder 3000 Sample.doc_undated) = Some 3000 /\
  order_date (toOrder 3000 Sample.doc_dated) = Some 2000 /\
  view (filteredOrders
          (onSnapshot_orders (fun _ => 3000) [Sample.doc_dated; Sample.doc_undated])
          "all" "")
  = Ok [toOrder 3000 Sample.doc_undated; toOrder 3000 Sample.doc_dated] /\
  (0 < 1)%nat.
Proof.
  destruct (undated_record_gets_processing_time (fun _ => 3000)
              [Sample.doc_dated; Sample.doc_undated] 1%nat Sample.doc_undated eq_refl)
    as (_ & Hu & _).
  destruct (Hu eq_refl) as [Hdate Hpos].
  destruct (undated_record_gets_processing_time (fun _ => 3000)
              [Sample.doc_dated; Sample.doc_undated] 0%nat Sample.doc_dated eq_refl)
    as (_ & _ & Ht).
  split; [exact Hdate|]. split; [exact (Ht 2 500 eq_refl)|].
  split; [vm_compute; reflexivity|].
  apply (Hpos "all" "" [toOrder 3000 Sample.doc_undated; toOrder 3000 Sample.doc_dated]
              0%nat 1%nat (toOrder 3000 Sample.doc_dated) 2000).
  - repeat constructor; eexists; reflexivity.
  - vm_compute. reflexivity.
  - reflexivity.
  - reflexivity.
  - reflexivity.
  - reflexivity.
Defined.




(** The id order of ties is inherited from the cache: when the cache lists
    its records in ascending id order (the order in which a listener on a whole
    collection is served), so do the ties of every view. The component itself
    does nothing to bring that order about. *)
Lemma StronglySorted_sublist {A} (R : A -> A -> Prop) (l1 l2 : list A) :
  sublist l1 l2 -> StronglySorted R l2 -> StronglySorted R l1.
Proof.
  induction 1 as [|x l1 l2 Hsub IH|x l1 l2 Hsub IH]; intros Hs.
  - constructor.
  - apply StronglySorted_inv in Hs as [Hs Hx]. constructor; [now apply IH|].
    rewrite Forall_forall in *. intros y Hy. apply Hx. eapply elem_of_sublist; eassumption.
  - apply StronglySorted_inv in Hs as [Hs _]. now apply IH.
Qed.

Lemma StronglySorted_class_pairs {A} (R : A -> A -> Prop) (p : A -> bool) (l : list A) :
  StronglySorted R (List.filter p l) ->
  forall i j x y, (i < j)%nat -> l !! i = Some x -> l !! j = Some y ->
    p x = true -> p y = true -> R x y.
Proof.
  induction l as [|z l IH]; intros Hs i j x y Hij Hi Hj Hpx Hpy; [discriminate|].
  simpl in Hs. destruct j as [|j]; [lia|]. simpl in Hj.
  destruct i as [|i]; simpl in Hi.
  - injection Hi as ->. rewrite Hpx in Hs.
    apply StronglySorted_inv in Hs as [_ Hx]. rewrite Forall_forall in Hx. apply Hx.
    apply list_elem_of_In, filter_In. split; [|assumption].
    apply list_elem_of_In. eapply list_elem_of_lookup_2; eassumption.
  - destruct (p z).
    + apply StronglySorted_inv in Hs as [Hs _]. eapply (IH Hs i j); try eassumption. lia.
    + eapply (IH Hs i j); try eassumption. lia.
Qed.

Lemma filter_StronglySorted {A} (R : A -> A -> Prop) (p : A -> bool) (l : list A) :
  StronglySorted R l -> StronglySorted R (List.filter p l).
Proof. apply StronglySorted_sublist, filter_sublist_of. Qed.

Lemma ties_follow_cache_id_order orders filter searchTerm v :
  StronglySorted id_le orders ->
  view (filteredOrders orders filter searchTerm) = Ok v ->
  ties_by_id true v.
Proof.
  intros Hids Hview. rewrite view_filteredOrders in Hview.
  destruct (selection orders filter searchTerm) as [l|] eqn:Hsel; [|discriminate].
  simpl in Hview. injection Hview as <-.
  intros i j x y Hij Hi Hj Hdate.
  eapply (StronglySorted_class_pairs id_le (has_date (order_date x))); try eassumption.
  - rewrite (sort_stable by_date_desc _ l (by_date_desc_tie (order_date x))).
    apply filter_StronglySorted.
    eapply StronglySorted_sublist; [|exact Hids]. eapply selection_sublist; eassumption.
  - apply has_date_own.
  - rewrite Hdate. apply has_date_own.
Qed.

(** ** Purity of the derived view *)

(** C2 at its failing input. With the filter "all" and an empty search,
    [currentOrders] is the [orders] state array itself and [sort] reorders it
    in place: the evaluation returns that array, and the state array, which
    held a, b, now holds b, a. *)
Theorem filteredOrders_sorts_orders_state_in_place :
  returned (filteredOrders
              (onSnapshot_orders Sample.at_1000 [Sample.doc_undated; Sample.doc_dated])
              "all" "") = Ok OrdersState /\
  map (fun o => get o "id")
      (onSnapshot_orders Sample.at_1000 [Sample.doc_undated; Sample.doc_dated])
  = [Some (VStr "a"); Some (VStr "b")] /\
  map (fun o => get o "id")
      (orders_after
         (filteredOrders
            (onSnapshot_orders Sample.at_1000 [Sample.doc_undated; Sample.doc_dated])
            "all" ""))
  = [Some (VStr "b"); Some (VStr "a")].
Proof. repeat split; vm_compute; reflexivity. Qed.

(** With any other filter or a search term the state array is left alone. *)
Lemma filteredOrders_fresh_array_leaves_orders orders filter searchTerm :
  (String.eqb filter "all" && String.eqb searchTerm "")%bool = false ->
  orders_after (filteredOrders orders filter searchTerm) = orders.
Proof. intros H. now rewrite orders_after_filteredOrders, H. Qed.

(** ** Search *)

Lemma append_cons c s t : String c s +:+ t = String c (s +:+ t).
Proof. reflexivity. Qed.

Lemma append_nil t : "" +:+ t = t.
Proof. reflexivity. Qed.






(** A property that is missing is read before any later one is tried. *)
Lemma matches_search_missing_order_id searchLower o :
  get o "order_id" = None ->
  matches_search searchLower o =
  Throw (TypeError "Cannot read properties of undefined (reading 'toLowerCase')").
Proof. intros H. unfold matches_search. now rewrite H. Qed.

(** C6 at its failing input. The record has no [order_id]; its customer name
    "Ana" contains the search term "ana" once lowered, so by the specification
    it matches. The evaluation stops with a TypeError instead. *)
Theorem search_throws_on_missing_field :
  get (toOrder 1000 Sample.doc_no_order_id) "order_id" = None /\
  lower_includes (get (toOrder 1000 Sample.doc_no_order_id) "customer_name")
                 (toLowerCase "ana") = Ok true /\
  returned (filteredOrders (onSnapshot_orders Sample.at_1000 [Sample.doc_no_order_id])
                           "all" "ana")
  = Throw (TypeError "Cannot read properties of undefined (reading 'toLowerCase')").
Proof. repeat split; vm_compute; reflexivity. Qed.

(** ** Status badges *)

Lemma status_count_cons o orders s :
  status_count (o :: orders) s =
  ((if status_is o (value s) then 1 else 0) + status_count orders s)%nat.
Proof. unfold status_count. simpl. now destruct (status_is o (value s)). Qed.

Lemma status_indicator_sum o :
  list_sum (map (fun s => if status_is o (value s) then 1 else 0)%nat STATUS_OPTIONS)
  = if known_status o then 1%nat else 0%nat.
Proof.
  unfold known_status, status_is.
  destruct (get o "status") as [[| | |t| | | |]|]; try reflexivity.
  simpl.
  destruct (String.eqb_spec t "new") as [->|]; [reflexivity|].
  destruct (String.eqb_spec t "preparing") as [->|]; [reflexivity|].
  destruct (String.eqb_spec t "ready_to_ship") as [->|]; [reflexivity|].
  destruct (String.eqb_spec t "shipped") as [->|]; [reflexivity|].
  destruct (String.eqb_spec t "cancelled") as [->|]; reflexivity.
Qed.

Lemma sum_status_counts_cons o orders :
  sum_status_counts (o :: orders) =
  ((if known_status o then 1 else 0) + sum_status_counts orders)%nat.
Proof.
  rewrite <- status_indicator_sum. unfold sum_status_counts, STATUS_OPTIONS.
  unfold list_sum. cbn [map fold_right]. rewrite !status_count_cons. lia.
Qed.

Lemma sum_status_counts_known orders :
  sum_status_counts orders = List.length (List.filter known_status orders).
Proof.
  induction orders as [|o orders IH]; [reflexivity|].
  rewrite sum_status_counts_cons, IH. simpl. now destruct (known_status o).
Qed.

Lemma filter_length_all {A} (p : A -> bool) l :
  List.length (List.filter p l) = List.length l <-> Forall (fun x => p x = true) l.
Proof.
  assert (Hle : forall l0 : list A, (List.length (List.filter p l0) <= List.length l0)%nat).
  { intros l0. induction l0 as [|y l0 IH]; simpl; [lia|]. destruct (p y); simpl; lia. }
  induction l as [|x l IH]; simpl.
  - split; [constructor|reflexivity].
  - destruct (p x) eqn:Hp; simpl.
    + split.
      * intros H. constructor; [assumption|]. apply IH. lia.
      * intros H. apply Forall_cons_1 in H as [_ H]. apply IH in H. lia.
    + split.
      * intros H. specialize (Hle l). lia.
      * intros H. apply Forall_cons_1 in H as [H _]. congruence.
Qed.

(** C9, as stated, fails: a cached record whose status is none of the five
    options is counted by no badge, so the badges add up to 0 while the cache
    holds one record. *)
Lemma badges_do_not_always_sum_to_total :
  sum_status_counts (onSnapshot_orders Sample.at_1000 [Sample.doc_pending]) = 0%nat /\
  all_count (onSnapshot_orders Sample.at_1000 [Sample.doc_pending]) = 1%nat /\
  sum_status_counts (onSnapshot_orders Sample.at_1000 [Sample.doc_pending])
  <> all_count (onSnapshot_orders Sample.at_1000 [Sample.doc_pending]).
Proof.
  split; [vm_compute; reflexivity|]. split; [vm_compute; reflexivity|].
  vm_compute. discriminate.
Qed.

(** A status outside the list is drawn with the first option's colour and
    icon. *)
Lemma getStatusDetails_unknown :
  getStatusDetails (Some (VStr "Pending")) = head STATUS_OPTIONS /\
  getStatusDetails None = head STATUS_OPTIONS.
Proof. split; reflexivity. Qed.

(** C9, amended: the badges are computed from the cache alone; added up over
    the five status options they give the number of cached records whose
    status is one of the options, and that is the total record count exactly
    when every cached record has such a status. *)
Theorem badges_sum_to_known_records (orders : list order) :
  sum_status_counts orders = List.length (List.filter known_status orders) /\
  (sum_status_counts orders = all_count orders <->
   Forall (fun o => known_status o = true) orders).
Proof.
  split; [apply sum_status_counts_known|].
  rewrite sum_status_counts_known. apply filter_length_all.
Qed.

(** ** The mutation handlers *)

Section HandlerFacts.
Variable appId : string.
Variable sdk : sdk_call -> option exn.
Variable parseFloat : option jsvalue -> jsvalue.
Variable doc_refused : string -> string -> option exn.

Lemma getOrderCollectionRef_ready st :
  session_ready st = true ->
  getOrderCollectionRef appId st
  = Some {| path := "artifacts/" +:+ appId +:+ "/public/data/orders" |}.
Proof. intros H. unfold getOrderCollectionRef. now rewrite H. Qed.





Lemma newOrder_status now random st :
  newOrder parseFloat now random st !! "status" = formData st !! "status".
Proof.
  unfold newOrder, set_prop.
  rewrite !lookup_insert_ne by discriminate.
  destruct (formData st !! "marketplace").
  - now rewrite !lookup_insert_ne by discriminate.
  - rewrite lookup_delete_ne by discriminate. now rewrite !lookup_insert_ne by discriminate.
Qed.

Lemma handleAddOrder_run now random st :
  exists st',
    handleAddOrder appId sdk parseFloat now random st = (Ok tt, st') /\
    trace st' = (trace st ++ [AddDoc (getOrderCollectionRef appId st)
                                     (newOrder parseFloat now random st)])%list /\
    isAdding st' = false /\
    match sdk (AddDoc (getOrderCollectionRef appId st) (newOrder parseFloat now random st)) with
    | None => formData st' = initial_formData /\ error st' = error st
    | Some e => formData st' = formData st /\
                error st' = Some ("Fallo al agregar pedido: " +:+ message e)
    end.
Proof.
  unfold handleAddOrder, finally, try_catch, mbind, M_bind, modify, read, await.
  simpl.
  change (getOrderCollectionRef appId (set_isAdding true st))
    with (getOrderCollectionRef appId st).
  change (newOrder parseFloat now random (set_isAdding true st))
    with (newOrder parseFloat now random st).
  destruct (sdk _) as [e|]; simpl; eexists; repeat split.
Qed.

End HandlerFacts.

(** C3, as stated, fails: the cached order [b] is shipped, its status select
    offers "preparing", and choosing it sends the update to the SDK; nothing
    is rejected. *)
Lemma shipped_order_is_still_updated :
  exists target st' patch,
    status_is (toOrder 1000 Sample.doc_dated) "shipped" = true /\
    get (toOrder 1000 Sample.doc_dated) "id" = Some (VStr "b") /\
    STATUS_OPTIONS !! 1%nat = Some target /\ value target = "preparing" /\
    statusSelect_onChange "app" Sample.sdk_ok Sample.doc_ok 5000 "b" target Sample.ready
    = (Ok tt, st') /\
    trace st' = [UpdateDoc "artifacts/app/public/data/orders" "b" patch] /\
    patch !! "status" = Some (VStr "preparing").
Proof.
  eexists _, _, _. repeat split; vm_compute; reflexivity.
Qed.

(** C3, amended: [handleUpdateStatus] never looks at the order's current
    status and knows no transition table. In a ready session, for every order
    id and every target status it makes one [updateDoc] call on that order
    with the patch of [status], [updated_by] and [updated_at], and completes
    normally; an SDK rejection is reported through the error state. *)
Theorem handleUpdateStatus_forwards_every_target
  (appId : string) (sdk : sdk_call -> option exn)
  (doc_refused : string -> string -> option exn) (now : Z)
  (orderId newStatus : string) (st : state) :
  session_ready st = true ->
  doc_refused ("artifacts/" +:+ appId +:+ "/public/data/orders") orderId = None ->
  exists st',
    handleUpdateStatus appId sdk doc_refused now orderId newStatus st = (Ok tt, st') /\
    trace st' = (trace st ++
      [UpdateDoc ("artifacts/" +:+ appId +:+ "/public/data/orders") orderId
         {[ "status" := VStr newStatus;
            "updated_by" := userId_value st;
            "updated_at" := VDate (new_Date now) ]}])%list /\
    error st' =
      match sdk (UpdateDoc ("artifacts/" +:+ appId +:+ "/public/data/orders") orderId
                   {[ "status" := VStr newStatus;
                      "updated_by" := userId_value st;
                      "updated_at" := VDate (new_Date now) ]}) with
      | None => error st
      | Some e => Some ("Fallo al actualizar el estado: " +:+ message e)
      end.
Proof.
  intros H Hdoc.
  unfold handleUpdateStatus, orderDocRef, mbind, M_bind, orderCollectionPath,
    try_catch, read, await, modify.
  rewrite (getOrderCollectionRef_ready appId st H). simpl. rewrite Hdoc. simpl.
  destruct (sdk _) as [e|]; simpl; eexists; repeat split.
Qed.

Lemma handleUpdateStatus_forwards_every_target_witness :
  session_ready Sample.ready = true /\
  exists st',
    handleUpdateStatus "app" Sample.sdk_ok Sample.doc_ok 5000 "b" "new" Sample.ready
    = (Ok tt, st') /\
    List.length (trace st') = 1%nat.
Proof.
  split; [reflexivity|].
  destruct (handleUpdateStatus_forwards_every_target
              "app" Sample.sdk_ok Sample.doc_ok 5000 "b" "new" Sample.ready eq_refl eq_refl)
    as (st' & Hrun & Htrace & _).
  exists st'. split; [exact Hrun|]. rewrite Htrace. reflexivity.
Defined.


(** ** Creating an order *)

(** C7: with no linked marketplace [AddOrderForm] renders the warning in
    place of the form, so there is nothing to submit: an attempt to create an
    order ends there, the state is untouched and no SDK call is made. *)
Theorem no_marketplace_no_create
  (appId : string) (sdk : sdk_call -> option exn) (parseFloat : option jsvalue -> jsvalue)
  (now random : Z) (st : state) :
  linkedMarketplaces st = [] ->
  AddOrderForm st = NoMarketplacesWarning /\
  submitOrder appId sdk parseFloat now random st = (NoFormRendered, st) /\
  trace (submitOrder appId sdk parseFloat now random st).2 = trace st.
Proof.
  intros H. unfold submitOrder, AddOrderForm. rewrite H. simpl. repeat split.
Qed.

Lemma no_marketplace_no_create_witness :
  linkedMarketplaces Sample.no_marketplace = [] /\
  submitOrder "app" Sample.sdk_ok Sample.parse_ten 5000 7 Sample.no_marketplace
  = (NoFormRendered, Sample.no_marketplace).
Proof.
  split; [reflexivity|].
  exact (proj1 (proj2 (no_marketplace_no_create
                         "app" Sample.sdk_ok Sample.parse_ten 5000 7
                         Sample.no_marketplace eq_refl))).
Defined.

(** C8, as stated, fails: the form has a status select; with "shipped"
    chosen there the accepted create forwards a record whose status is
    "shipped". *)
Lemma created_status_can_be_shipped :
  exists st' ref rec,
    submitOrder "app" Sample.sdk_ok Sample.parse_ten 5000 7
                (handleChange "status" "shipped" Sample.ready)
    = (Submitted (Ok tt), st') /\
    trace st' = [AddDoc ref rec] /\
    rec !! "status" = Some (VStr "shipped") /\
    rec !! "status" <> Some (VStr "new").
Proof.
  eexists _, _, _. split; [vm_compute; reflexivity|]. split; [reflexivity|].
  split; [reflexivity|]. vm_compute. discriminate.
Qed.

(** C8, amended: an accepted create forwards one record to [addDoc], and its
    status is the status held by the form. The form starts with "new" and is
    reset to it after every create the SDK accepts; in between the status
    select can set it to any option. *)
Theorem created_status_is_form_status
  (appId : string) (sdk : sdk_call -> option exn) (parseFloat : option jsvalue -> jsvalue)
  (now random : Z) (st st' : state) (r : outcome unit) :
  submitOrder appId sdk parseFloat now random st = (Submitted r, st') ->
  exists ref rec,
    trace st' = (trace st ++ [AddDoc ref rec])%list /\
    rec !! "status" = formData st !! "status" /\
    initial_formData !! "status" = Some (VStr "new") /\
    (sdk (AddDoc ref rec) = None -> formData st' = initial_formData).
Proof.
  unfold submitOrder. destruct (AddOrderForm st) as [|disabled]; [discriminate|].
  destruct (disabled || negb (required_filled st))%bool; [discriminate|].
  destruct (handleAddOrder_run appId sdk parseFloat now random st)
    as (st1 & Hrun & Htrace & _ & Hsdk).
  rewrite Hrun. intros [= <- <-].
  eexists _, _. split; [exact Htrace|]. split; [apply newOrder_status|].
  split; [reflexivity|].
  intros Hok. rewrite Hok in Hsdk. apply Hsdk.
Qed.

Lemma created_status_is_form_status_witness :
  exists st' ref rec,
    trace st' = [AddDoc ref rec] /\ rec !! "status" = Some (VStr "new") /\
    formData st' = initial_formData.
Proof.
  destruct (created_status_is_form_status
              "app" Sample.sdk_ok Sample.parse_ten 5000 7 Sample.ready
              (handleAddOrder "app" Sample.sdk_ok Sample.parse_ten 5000 7 Sample.ready).2
              (Ok tt) eq_refl)
    as (ref & rec & Htrace & Hstatus & _ & Hreset).
  eexists _, ref, rec. split; [exact Htrace|]. split; [rewrite Hstatus; reflexivity|].
  apply Hreset. reflexivity.
Defined.

(** ** The session gate *)

Section LifecycleFacts.
Variable appId : string.
Variable sdk : sdk_call -> option exn.
Variable parseFloat : option jsvalue -> jsvalue.
Variable doc_refused : string -> string -> option exn.











End LifecycleFacts.

(** A run that reaches the dashboard and changes a status: the component is
    mounted, the user is signed in, the listeners are attached, a snapshot with
    the document [b] arrives, and "preparing" is chosen on its card. *)
Lemma run_to_a_status_update :
  exists c patch,
    run "app" Sample.sdk_ok Sample.parse_ten Sample.doc_ok
        [Mount InitDone; AuthStateChanged (Some "user-1") None; ListenersAttached;
         OrdersSnapshot (Delivery [Sample.doc_dated] Sample.at_1000);
         StatusSelected "b" 1 5000] = Some c /\
    render c = Dashboard /\
    trace (inner c) = [UpdateDoc "artifacts/app/public/data/orders" "b" patch] /\
    unhandled c = [].
Proof. eexists _, _. repeat split; vm_compute; reflexivity. Qed.




(** * Further properties of the collaborative dashboard *)

(** ** What the view shows *)


Lemma selection_no_search orders filter :
  selection orders filter "" = Ok (List.filter (passes_status filter) orders).
Proof.
  unfold selection, passes_status. simpl.
  destruct (String.eqb filter "all"); simpl; [|reflexivity].
  f_equal. induction orders as [|o l IH]; simpl; congruence.
Qed.

(** X1. Without a search term the view never fails; under the filter "all"
    it shows every cached record exactly once, and under any other filter
    exactly the records whose [status] is that string. *)
Theorem status_filter_selects (orders : list order) (filter : string) :
  exists v,
    view (filteredOrders orders filter "") = Ok v /\
    (filter = "all" -> Permutation v orders) /\
    (filter <> "all" ->
       Permutation v (List.filter (fun o => status_is o filter) orders) /\
       Forall (fun o => get o "status" = Some (VStr filter)) v).
Proof.
  rewrite view_filteredOrders, selection_no_search. simpl. eexists. split; [reflexivity|].
  split.
  - intros ->. rewrite sort_perm. simpl.
    induction orders as [|o l IH]; simpl; [constructor|]. now constructor.
  - intros Hne. assert (Hf : String.eqb filter "all" = false) by now apply String.eqb_neq.
    unfold passes_status. rewrite Hf. simpl. split; [apply sort_perm|].
    eapply Permutation_Forall; [symmetry; apply sort_perm|].
    apply Forall_forall. intros o Ho. apply list_elem_of_In, filter_In in Ho as [_ Ho].
    unfold status_is in Ho. destruct (get o "status") as [[]|]; try discriminate.
    apply String.eqb_eq in Ho. now subst.
Qed.

(** X4. The badge of a status option is the number of rows the list shows
    once that option is chosen as filter (with the search box empty), and the
    badge of "all" is the number of rows shown under "all". *)
Theorem badge_counts_the_rows (orders : list order) (s : status_option) :
  In s STATUS_OPTIONS ->
  (exists v, view (filteredOrders orders (value s) "") = Ok v /\
             List.length v = status_count orders s) /\
  (exists v, view (filteredOrders orders "all" "") = Ok v /\
             List.length v = all_count orders).
Proof.
  intros Hs. split.
  - rewrite view_filteredOrders, selection_no_search. simpl.
    eexists. split; [reflexivity|].
    rewrite (Permutation_length (sort_perm _ _)).
    unfold status_count, passes_status.
    assert (Hf : String.eqb (value s) "all" = false).
    { apply String.eqb_neq. simpl in Hs. intuition (subst; discriminate). }
    rewrite Hf. reflexivity.
  - rewrite view_filteredOrders, selection_no_search. simpl.
    eexists. split; [reflexivity|].
    rewrite (Permutation_length (sort_perm _ _)).
    unfold all_count, passes_status. simpl.
    induction orders as [|o l IH]; simpl; congruence.
Qed.

Lemma badge_counts_the_rows_witness :
  exists v,
    view (filteredOrders (onSnapshot_orders Sample.at_1000
                            [Sample.doc_undated; Sample.doc_dated; Sample.doc_pending])
                         "shipped" "") = Ok v /\
    List.length v = 1%nat.
Proof.
  destruct (badge_counts_the_rows
              (onSnapshot_orders Sample.at_1000
                 [Sample.doc_undated; Sample.doc_dated; Sample.doc_pending])
              {| value := "shipped"; label := "Enviado"; color := "bg-green-500"; icon := "✅" |})
    as [(v & Hv & Hlen) _].
  - simpl. tauto.
  - exists v. split; [exact Hv|]. rewrite Hlen. reflexivity.
Defined.






(** ** The in-place sort and later evaluations *)








(** ** More on the cache *)

(** X14. When the documents of a snapshot have distinct ids and none of them
    has a data field called [id], the cached records have distinct ids (the
    keys of the rendered cards). *)
Theorem cache_ids_distinct (clock : nat -> Z) (docs : list doc) :
  NoDup (map doc_id docs) ->
  Forall (fun d => doc_data d !! "id" = None) docs ->
  NoDup (map (fun o => get o "id") (onSnapshot_orders clock docs)).
Proof.
  intros Hnd Hid.
  assert (Heq : map (fun o => get o "id") (onSnapshot_orders clock docs)
                = map (fun i => Some (VStr i)) (map doc_id docs)).
  { apply list_eq. intros i. unfold onSnapshot_orders.
    change (map ?f ?l) with (f <$> l).
    rewrite !list_lookup_fmap, list_lookup_imap.
    destruct (docs !! i) as [d|] eqn:Hd; simpl; [|reflexivity].
    f_equal. apply toOrder_get_id.
    rewrite Forall_forall in Hid. apply Hid. eapply list_elem_of_lookup_2, Hd. }
  rewrite Heq.
  assert (Hinj : Inj eq eq (fun i : string => Some (VStr i))) by (intros x y [=]; assumption).
  now apply (NoDup_fmap_2 (fun i => Some (VStr i))).
Qed.

Lemma cache_ids_distinct_witness :
  NoDup (map (fun o => get o "id")
             (onSnapshot_orders Sample.at_1000 [Sample.doc_undated; Sample.doc_dated])).
Proof.
  apply cache_ids_distinct.
  - vm_compute. repeat constructor; rewrite ?elem_of_cons; [|apply not_elem_of_nil].
    intros [H|H]; [discriminate|now apply elem_of_nil in H].
  - repeat constructor.
Defined.

(** X15. An [order_date] that is delivered as something else than a
    Timestamp or a map: when it is falsy (null, false, 0, the empty string) the
    record gets the processing time like an undated one, and when it is truthy
    (a non-empty string such as an ISO date, a non-zero number, true, an array)
    the record gets an Invalid Date. *)
Theorem order_date_of_other_values (now : Z) (d : doc) (v : jsvalue) :
  doc_data d !! "order_date" = Some v ->
  (forall s n, v <> VTimestamp s n) ->
  (forall fields, v <> VObj fields) ->
  order_date (toOrder now d) = if truthy (Some v) then None else new_Date now.
Proof.
  intros Hv Hts Hobj. unfold toOrder. simpl. rewrite Hv. simpl.
  destruct v as [|b|n|s|sec nano|dt|items|fields]; simpl; try reflexivity.
  - now contradiction (Hts sec nano).
  - now contradiction (Hobj fields).
Qed.

Lemma order_date_of_other_values_witness :
  order_date (toOrder 1000 (Doc "x" {[ "order_date" := VStr "2024-01-01" ]})) = None /\
  order_date (toOrder 1000 (Doc "y" {[ "order_date" := VNull ]})) = Some 1000.
Proof.
  split.
  - exact (order_date_of_other_values 1000 (Doc "x" {[ "order_date" := VStr "2024-01-01" ]})
             (VStr "2024-01-01") eq_refl ltac:(discriminate) ltac:(discriminate)).
  - exact (order_date_of_other_values 1000 (Doc "y" {[ "order_date" := VNull ]})
             VNull eq_refl ltac:(discriminate) ltac:(discriminate)).
Defined.

(** ** Status details *)

(** X13. [getStatusDetails] always finds an option of [STATUS_OPTIONS]: the
    one whose value is the given status when there is one, and the first
    option ("new") for any other string and for a status that is missing or no
    string. *)
Theorem getStatusDetails_always_an_option (statusValue : option jsvalue) :
  exists s,
    getStatusDetails statusValue = Some s /\ In s STATUS_OPTIONS /\
    match statusValue with
    | Some (VStr t) =>
        if existsb (fun s' => String.eqb (value s') t) STATUS_OPTIONS
        then value s = t else value s = "new"
    | _ => value s = "new"
    end.
Proof.
  destruct statusValue as [[| | |t| | | |]|];
    try (eexists; split; [reflexivity|]; split; [left; reflexivity|reflexivity]).
  unfold getStatusDetails, STATUS_OPTIONS. cbn [List.find existsb value head orb].
  destruct (String.eqb "new" t) eqn:E1;
    [apply String.eqb_eq in E1; eexists; split; [reflexivity|]; split; [simpl; tauto|exact E1]|].
  destruct (String.eqb "preparing" t) eqn:E2;
    [apply String.eqb_eq in E2; eexists; split; [reflexivity|]; split; [simpl; tauto|exact E2]|].
  destruct (String.eqb "ready_to_ship" t) eqn:E3;
    [apply String.eqb_eq in E3; eexists; split; [reflexivity|]; split; [simpl; tauto|exact E3]|].
  destruct (String.eqb "shipped" t) eqn:E4;
    [apply String.eqb_eq in E4; eexists; split; [reflexivity|]; split; [simpl; tauto|exact E4]|].
  destruct (String.eqb "cancelled" t) eqn:E5;
    [apply String.eqb_eq in E5; eexists; split; [reflexivity|]; split; [simpl; tauto|exact E5]|].
  eexists; split; [reflexivity|]; split; [simpl; tauto|reflexivity].
Qed.


(** ** Deleting and creating *)

(** X5. [handleDeleteOrder]: when the confirmation is declined nothing
    happens at all. When it is confirmed, in a ready session and for an id the
    SDK takes, exactly one [deleteDoc] call is made on that order in the shared
    collection and the handler completes; a rejection by the SDK is put into
    the error state, otherwise the error state is left alone. *)
Theorem handleDeleteOrder_behaviour
  (appId : string) (sdk : sdk_call -> option exn)
  (doc_refused : string -> string -> option exn) (orderId : string) (st : state) :
  session_ready st = true ->
  doc_refused ("artifacts/" +:+ appId +:+ "/public/data/orders") orderId = None ->
  handleDeleteOrder appId sdk doc_refused false orderId st = (Ok tt, st) /\
  exists st',
    handleDeleteOrder appId sdk doc_refused true orderId st = (Ok tt, st') /\
    trace st' = (trace st ++
      [DeleteDoc ("artifacts/" +:+ appId +:+ "/public/data/orders") orderId])%list /\
    error st' =
      match sdk (DeleteDoc ("artifacts/" +:+ appId +:+ "/public/data/orders") orderId) with
      | None => error st
      | Some e => Some ("Fallo al eliminar el pedido: " +:+ message e)
      end.
Proof.
  intros H Hdoc. split; [reflexivity|].
  unfold handleDeleteOrder, orderDocRef, mbind, M_bind, orderCollectionPath,
    try_catch, await, modify.
  simpl. rewrite (getOrderCollectionRef_ready appId st H). simpl. rewrite Hdoc. simpl.
  destruct (sdk _) as [e|]; simpl; eexists; repeat split.
Qed.

Lemma handleDeleteOrder_behaviour_witness :
  exists st',
    handleDeleteOrder "app" Sample.sdk_ok Sample.doc_ok true "b" Sample.ready = (Ok tt, st') /\
    trace st' = [DeleteDoc "artifacts/app/public/data/orders" "b"] /\
    error st' = None.
Proof.
  destruct (handleDeleteOrder_behaviour "app" Sample.sdk_ok Sample.doc_ok "b" Sample.ready
              eq_refl eq_refl) as (_ & st' & Hrun & Htrace & Herr).
  exists st'. split; [exact Hrun|]. split; [exact Htrace|exact Herr].
Defined.




(** ** The component over a run *)

Section RunFacts.
Variable appId : string.
Variable sdk : sdk_call -> option exn.
Variable parseFloat : option jsvalue -> jsvalue.
Variable doc_refused : string -> string -> option exn.

Local Abbreviation step' := (step appId sdk parseFloat doc_refused).
Local Abbreviation run' := (run appId sdk parseFloat doc_refused).

Lemma run_snoc es e :
  run' (es ++ [e]) = run' es ≫= step' e.
Proof. unfold run. now rewrite foldl_app. Qed.





End RunFacts.



Section ErrorFacts.
Variable appId : string.
Variable sdk : sdk_call -> option exn.
Variable parseFloat : option jsvalue -> jsvalue.
Variable doc_refused : string -> string -> option exn.

Local Abbreviation step' := (step appId sdk parseFloat doc_refused).
Local Abbreviation run' := (run appId sdk parseFloat doc_refused).

Lemma error_ok_set_error c s t st : error_ok (set_error (String c s +:+ t) st).
Proof. intros msg [= <-]. rewrite append_cons. discriminate. Qed.

Lemma handleUpdateStatus_error_ok now orderId newStatus st :
  error_ok st ->
  error_ok (handleUpdateStatus appId sdk doc_refused now orderId newStatus st).2.
Proof.
  intros H.
  unfold handleUpdateStatus, orderDocRef, orderCollectionPath, try_catch, read, await,
    modify, throw, mbind, M_bind, mret, M_ret.
  destruct (getOrderCollectionRef appId st); simpl; [|exact H].
  destruct (doc_refused _ _); simpl; [exact H|].
  destruct (sdk _); simpl; [|exact H].
  intros msg [= <-]. rewrite append_cons. discriminate.
Qed.

Lemma handleDeleteOrder_error_ok confirmed orderId st :
  error_ok st ->
  error_ok (handleDeleteOrder appId sdk doc_refused confirmed orderId st).2.
Proof.
  intros H.
  unfold handleDeleteOrder, orderDocRef, orderCollectionPath, try_catch, read, await,
    modify, throw, mbind, M_bind, mret, M_ret.
  destruct confirmed; simpl; [|exact H].
  destruct (getOrderCollectionRef appId st); simpl; [|exact H].
  destruct (doc_refused _ _); simpl; [exact H|].
  destruct (sdk _); simpl; [|exact H].
  intros msg [= <-]. rewrite append_cons. discriminate.
Qed.

Lemma submitOrder_error_ok now random st :
  error_ok st -> error_ok (submitOrder appId sdk parseFloat now random st).2.
Proof.
  intros H. unfold submitOrder.
  destruct (AddOrderForm st); [exact H|].
  destruct (_ || _)%bool; [exact H|].
  destruct (handleAddOrder_run appId sdk parseFloat now random st)
    as (st' & Hrun & _ & _ & Hsdk).
  rewrite Hrun. simpl. destruct (sdk _).
  - destruct Hsdk as [_ He]. intros msg Hm. rewrite He in Hm. injection Hm as <-.
    rewrite append_cons. discriminate.
  - destruct Hsdk as [_ He]. intros msg Hm. rewrite He in Hm. now apply H.
Qed.

Lemma error_ok_step e c c' :
  step' e c = Some c' -> error_ok (inner c) -> error_ok (inner c').
Proof.
  intros Hstep H.
  destruct e as [r|user signIn| |docs|d|e|orderId k now|orderId confirmed|name v|now random];
    simpl in Hstep.
  - destruct (mounted c); [discriminate|]. injection Hstep as <-.
    destruct r as [|b e|]; simpl.
    + intros msg [= <-]. discriminate.
    + intros msg [= <-]. rewrite append_cons. discriminate.
    + exact H.
  - destruct (negb (auth_observer c)); [discriminate|].
    destruct user as [uid|]; [destruct (String.eqb uid ""); [discriminate|]|destruct signIn];
      injection Hstep as <-; exact H.
  - destruct (_ && _)%bool; [|discriminate]. injection Hstep as <-. exact H.
  - destruct (listening c); [|discriminate]. injection Hstep as <-. exact H.
  - destruct (listening c); [|discriminate]. injection Hstep as <-. exact H.
  - destruct (listening c); [|discriminate]. injection Hstep as <-. simpl.
    intros msg [= <-]. rewrite append_cons. discriminate.
  - destruct (has_card c orderId); [|discriminate].
    destruct (STATUS_OPTIONS !! k) as [target|]; [|discriminate].
    injection Hstep as <-. unfold run_handler, statusSelect_onChange.
    pose proof (handleUpdateStatus_error_ok now orderId (value target) (inner c) H) as H'.
    destruct (handleUpdateStatus _ _ _ _ _ _ _). exact H'.
  - destruct (has_card c orderId); [|discriminate].
    injection Hstep as <-. unfold run_handler.
    pose proof (handleDeleteOrder_error_ok confirmed orderId (inner c) H) as H'.
    destruct (handleDeleteOrder _ _ _ _ _ _). exact H'.
  - destruct (render c); try discriminate. destruct (AddOrderForm (inner c)); [discriminate|].
    injection Hstep as <-. exact H.
  - destruct (render c); try discriminate.
    injection Hstep as <-. simpl. now apply submitOrder_error_ok.
Qed.

Lemma error_ok_run es c : run' es = Some c -> error_ok (inner c).
Proof.
  revert c. induction es as [|e es IH] using rev_ind; intros c Hrun.
  - injection Hrun as <-. intros msg. discriminate.
  - unfold run in Hrun. rewrite foldl_app in Hrun. simpl in Hrun.
    fold (run' es) in Hrun. destruct (run' es) as [c0|]; [|discriminate].
    eapply error_ok_step; [exact Hrun|]. now apply IH.
Qed.

Lemma error_shown_no_dashboard c : error_shown (inner c) -> render c <> Dashboard.
Proof.
  intros (msg & Hm & Hne). unfold render. destruct (_ || _)%bool; [discriminate|].
  rewrite Hm. simpl. destruct (String.eqb_spec msg ""); [contradiction|discriminate].
Qed.

(** Behind the loading or error screen an event neither clears the error
    nor reaches the SDK's write functions. *)
Lemma error_shown_step e c c' :
  error_shown (inner c) -> error_ok (inner c) -> step' e c = Some c' ->
  error_shown (inner c') /\ trace (inner c') = trace (inner c).
Proof.
  intros Herr Hok Hstep. pose proof (error_shown_no_dashboard c Herr) as Hscreen.
  pose proof (error_ok_step e c c' Hstep Hok) as Hok'.
  assert (Hkeep : forall st', error st' = error (inner c) -> error_shown st').
  { intros st' He. destruct Herr as (msg & Hm & Hne). exists msg. now rewrite He. }
  assert (Hset : forall st', is_Some (error st') -> error_ok st' -> error_shown st').
  { intros st' [msg Hm] Hk. exists msg. split; [assumption|now apply Hk]. }
  destruct e as [r|user signIn| |docs|d|e|orderId k now|orderId confirmed|name v|now random];
    simpl in Hstep.
  - destruct (mounted c); [discriminate|]. injection Hstep as <-.
    destruct r as [|b e|]; simpl in *; (split; [|now try destruct b]).
    + apply Hset; [now eexists|exact Hok'].
    + apply Hset; [now eexists|exact Hok'].
    + now apply Hkeep.
  - destruct (negb (auth_observer c)); [discriminate|].
    destruct user as [uid|]; [destruct (String.eqb uid ""); [discriminate|]|destruct signIn];
      injection Hstep as <-; simpl; (split; [now apply Hkeep|reflexivity]).
  - destruct (_ && _)%bool; [|discriminate]. injection Hstep as <-. now split.
  - destruct (listening c); [|discriminate]. injection Hstep as <-.
    simpl. split; [now apply Hkeep|reflexivity].
  - destruct (listening c); [|discriminate]. injection Hstep as <-. now split.
  - destruct (listening c); [|discriminate]. injection Hstep as <-. simpl in *.
    split; [|reflexivity]. apply Hset; [now eexists|exact Hok'].
  - unfold has_card in Hstep. destruct (render c); try discriminate. contradiction.
  - unfold has_card in Hstep. destruct (render c); try discriminate. contradiction.
  - destruct (render c); try discriminate. contradiction.
  - destruct (render c); try discriminate. contradiction.
Qed.

(** X8. An error is never cleared. Once an error message is stored
    (whether by a failed write, a listener error or a failed initialisation),
    the dashboard is never rendered again in that run and no further call
    reaches the SDK's write functions. *)
Theorem error_locks_the_dashboard (es es' : list event) (c c' : component) :
  run' es = Some c ->
  error (inner c) <> None ->
  run' (es ++ es') = Some c' ->
  error_shown (inner c') /\ render c' <> Dashboard /\
  trace (inner c') = trace (inner c).
Proof.
  intros Hrun Herr.
  assert (Hshown : error_shown (inner c)).
  { destruct (error (inner c)) as [msg|] eqn:Hm; [|contradiction].
    exists msg. split; [exact Hm|]. eapply error_ok_run; eassumption. }
  clear Herr. revert c'. induction es' as [|e es' IH] using rev_ind; intros c' Hrun'.
  - rewrite app_nil_r, Hrun in Hrun'. injection Hrun' as <-.
    split; [assumption|]. split; [now apply error_shown_no_dashboard|reflexivity].
  - rewrite app_assoc in Hrun'. unfold run in Hrun'. rewrite foldl_app in Hrun'.
    simpl in Hrun'. fold (run' (es ++ es')) in Hrun'.
    destruct (run' (es ++ es')) as [c1|] eqn:H1; [|discriminate]. simpl in Hrun'.
    destruct (IH c1 eq_refl) as (Hs1 & _ & Ht1).
    destruct (error_shown_step e c1 c' Hs1 (error_ok_run _ _ H1) Hrun') as [Hs' Ht'].
    split; [assumption|]. split; [now apply error_shown_no_dashboard|congruence].
Qed.


Lemma step_orders e c c' :
  step' e c = Some c' ->
  orders c' = match e with OrdersSnapshot d => deliver (orders c) d | _ => orders c end.
Proof.
  intros Hstep.
  destruct e as [r|user signIn| |docs|d|e|orderId k now|orderId confirmed|name v|now random];
    simpl in Hstep.
  - destruct (mounted c); [discriminate|]. injection Hstep as <-. now destruct r.
  - destruct (negb (auth_observer c)); [discriminate|].
    destruct user as [uid|]; [destruct (String.eqb uid ""); [discriminate|]|destruct signIn];
      now injection Hstep as <-.
  - destruct (_ && _)%bool; [|discriminate]. now injection Hstep as <-.
  - destruct (listening c); [|discriminate]. now injection Hstep as <-.
  - destruct (listening c); [|discriminate]. now injection Hstep as <-.
  - destruct (listening c); [|discriminate]. now injection Hstep as <-.
  - destruct (has_card c orderId); [|discriminate].
    destruct (STATUS_OPTIONS !! k) as [target|]; [|discriminate].
    injection Hstep as <-. unfold run_handler. now destruct (statusSelect_onChange _ _ _ _ _ _ _).
  - destruct (has_card c orderId); [|discriminate].
    injection Hstep as <-. unfold run_handler. now destruct (handleDeleteOrder _ _ _ _ _ _).
  - destruct (render c); try discriminate. destruct (AddOrderForm (inner c)); [discriminate|].
    now injection Hstep as <-.
  - destruct (render c); try discriminate. now injection Hstep as <-.
Qed.

Lemma run_orders es c :
  run' es = Some c ->
  orders c = match last_snapshot es with
             | Some d => onSnapshot_orders (clock_at d) (snapshot_docs d)
             | None => []
             end.
Proof.
  revert c. induction es as [|e es IH] using rev_ind; intros c Hrun.
  - now injection Hrun as <-.
  - unfold run in Hrun. rewrite foldl_app in Hrun. simpl in Hrun.
    fold (run' es) in Hrun. destruct (run' es) as [c0|]; [|discriminate].
    simpl in Hrun. rewrite (step_orders e c0 c Hrun).
    unfold last_snapshot. rewrite foldl_app. simpl. fold (last_snapshot es).
    destruct e; try (now apply IH). reflexivity.
Qed.

(** X10. The cache holds what the latest orders snapshot of the run
    delivered, and nothing before the first one: no create, status change or
    delete writes into it, and neither does any other event. (Stated up to the
    order of the array, which an evaluation of [filteredOrders] may change.) *)
Theorem cache_is_latest_snapshot (es : list event) (c : component) :
  run' es = Some c ->
  Permutation (orders c)
    match last_snapshot es with
    | Some d => onSnapshot_orders (clock_at d) (snapshot_docs d)
    | None => []
    end.
Proof. intros Hrun. now rewrite (run_orders es c Hrun). Qed.

End ErrorFacts.

Lemma error_locks_the_dashboard_witness :
  exists c c',
    run "app" (fun _ => Some (FirebaseError "permission-denied")) Sample.parse_ten Sample.doc_ok
        [Mount InitDone; AuthStateChanged (Some "user-1") None; ListenersAttached;
         OrdersSnapshot (Delivery [Sample.doc_dated] Sample.at_1000);
         StatusSelected "b" 1 5000] = Some c /\
    error (inner c) = Some "Fallo al actualizar el estado: permission-denied" /\
    run "app" (fun _ => Some (FirebaseError "permission-denied")) Sample.parse_ten Sample.doc_ok
        ([Mount InitDone; AuthStateChanged (Some "user-1") None; ListenersAttached;
          OrdersSnapshot (Delivery [Sample.doc_dated] Sample.at_1000);
          StatusSelected "b" 1 5000]
         ++ [OrdersSnapshot (Delivery [Sample.doc_undated] Sample.at_1000)]) = Some c' /\
    render c' <> Dashboard.
Proof.
  eexists _, _. split; [vm_compute; reflexivity|]. split; [reflexivity|].
  split; [vm_compute; reflexivity|].
  refine (proj1 (proj2 (error_locks_the_dashboard
            "app" (fun _ => Some (FirebaseError "permission-denied")) Sample.parse_ten
            Sample.doc_ok
            [Mount InitDone; AuthStateChanged (Some "user-1") None; ListenersAttached;
             OrdersSnapshot (Delivery [Sample.doc_dated] Sample.at_1000);
             StatusSelected "b" 1 5000]
            [OrdersSnapshot (Delivery [Sample.doc_undated] Sample.at_1000)]
            _ _ _ _ _))).
  - vm_compute. reflexivity.
  - discriminate.
  - vm_compute. reflexivity.
Defined.


Lemma cache_is_latest_snapshot_witness :
  exists c,
    run "app" Sample.sdk_ok Sample.parse_ten Sample.doc_ok
        [Mount InitDone; AuthStateChanged (Some "user-1") None; ListenersAttached;
         OrdersSnapshot (Delivery [Sample.doc_dated] Sample.at_1000);
         StatusSelected "b" 1 5000] = Some c /\
    Permutation (orders c) (onSnapshot_orders Sample.at_1000 [Sample.doc_dated]).
Proof.
  eexists. split; [vm_compute; reflexivity|].
  exact (cache_is_latest_snapshot "app" Sample.sdk_ok Sample.parse_ten Sample.doc_ok
           [Mount InitDone; AuthStateChanged (Some "user-1") None; ListenersAttached;
            OrdersSnapshot (Delivery [Sample.doc_dated] Sample.at_1000);
            StatusSelected "b" 1 5000] _ eq_refl).
Defined.


(** ** What is written to the store *)

Section TraceFacts.
Variable appId : string.
Variable sdk : sdk_call -> option exn.
Variable parseFloat : option jsvalue -> jsvalue.
Variable doc_refused : string -> string -> option exn.

Local Abbreviation step' := (step appId sdk parseFloat doc_refused).
Local Abbreviation run' := (run appId sdk parseFloat doc_refused).











End TraceFacts.





(** ** Collection paths *)

Lemma length_append a b :
  String.length (a +:+ b) = (String.length a + String.length b)%nat.
Proof. induction a as [|c a IH]; [reflexivity|]. rewrite append_cons. simpl. now rewrite IH. Qed.

Lemma append_cancel_r a b s : a +:+ s = b +:+ s -> a = b.
Proof.
  revert b. induction a as [|c a IH]; intros [|c' b] H.
  - reflexivity.
  - apply (f_equal String.length) in H. rewrite append_nil, length_append in H. simpl in H. lia.
  - apply (f_equal String.length) in H. rewrite append_nil, length_append in H. simpl in H. lia.
  - rewrite !append_cons in H. injection H as -> H. f_equal. now apply IH.
Qed.

(** X12. Orders are shared and integrations are private: two ready sessions
    of the same application get the same orders collection whoever the users
    are, while their marketplace collections coincide only when the user id is
    the same. *)
Theorem collections_shared_and_private
  (appId : string) (st1 st2 : state) (m1 m2 : CollectionReference) :
  getMarketplaceCollectionRef appId st1 = Some m1 ->
  getMarketplaceCollectionRef appId st2 = Some m2 ->
  getOrderCollectionRef appId st1 = getOrderCollectionRef appId st2 /\
  is_Some (getOrderCollectionRef appId st1) /\
  (path m1 = path m2 <-> userId st1 = userId st2).
Proof.
  unfold getMarketplaceCollectionRef, getOrderCollectionRef.
  destruct (session_ready st1) eqn:H1; [|discriminate].
  destruct (session_ready st2) eqn:H2; [|discriminate].
  intros [= <-] [= <-]. split; [reflexivity|]. split; [now eexists|]. simpl.
  unfold template_userId.
  unfold session_ready, userId_value in H1, H2.
  destruct (db st1), (db st2); try discriminate.
  destruct (userId st1) as [u1|], (userId st2) as [u2|]; try discriminate. simpl.
  split.
  - intros H. f_equal.
    apply (String.app_inj "artifacts/"), (String.app_inj appId), (String.app_inj "/users/") in H.
    now apply append_cancel_r in H.
  - now intros [= ->].
Qed.

Lemma collections_shared_and_private_witness :
  exists m1 m2,
    getMarketplaceCollectionRef "app" Sample.ready = Some m1 /\
    getMarketplaceCollectionRef "app" (set_userId "user-2" Sample.ready) = Some m2 /\
    path m1 <> path m2 /\
    getOrderCollectionRef "app" Sample.ready
    = getOrderCollectionRef "app" (set_userId "user-2" Sample.ready).
Proof.
  eexists _, _. split; [reflexivity|]. split; [reflexivity|].
  destruct (collections_shared_and_private "app" Sample.ready
              (set_userId "user-2" Sample.ready) _ _ eq_refl eq_refl) as (Ho & _ & Hm).
  split; [|exact Ho]. intros H. apply Hm in H. discriminate.
Defined.


(** * The private-collection dashboards *)

(** ** The order card *)

Lemma after_click_string s :
  Private.after_click (Some (VStr s)) =
  Some (VStr (if String.eqb s "Pending" then "Processing"
              else if String.eqb s "Processing" then "Shipped"
              else if String.eqb s "Shipped" then "Delivered"
              else if String.eqb s "Delivered" then "Delivered"
              else "Processing")).
Proof.
  unfold Private.after_click, Private.canAdvanceStatus, Private.nextStatus.
  destruct (String.eqb_spec s "Delivered") as [->|]; reflexivity.
Qed.

(** X17. The card's button walks an order through Pending, Processing,
    Shipped, Delivered: from any status (also an unknown or a missing one)
    three uses of the card end in "Delivered", the card has no button exactly
    when the status is "Delivered", and the button never sends "Pending". *)
Theorem card_reaches_Delivered (status : option jsvalue) :
  Private.after_click (Private.after_click (Private.after_click status))
  = Some (VStr "Delivered") /\
  (Private.canAdvanceStatus status = false <-> status = Some (VStr "Delivered")) /\
  Private.nextStatus status ∈ ["Processing"; "Shipped"; "Delivered"].
Proof.
  split; [|split].
  - assert (H : forall s, Private.after_click (Private.after_click (Private.after_click
                (Some (VStr s)))) = Some (VStr "Delivered")).
    { intros s. rewrite after_click_string.
      destruct (String.eqb s "Pending"); [reflexivity|].
      destruct (String.eqb s "Processing"); [reflexivity|].
      destruct (String.eqb s "Shipped"); [reflexivity|].
      destruct (String.eqb s "Delivered"); reflexivity. }
    destruct status as [[| | |s| | | |]|]; try reflexivity. apply H.
  - unfold Private.canAdvanceStatus.
    destruct status as [[| | |s| | | |]|]; try (split; discriminate).
    destruct (String.eqb_spec s "Delivered") as [->|Hne]; simpl.
    + split; reflexivity.
    + split; [discriminate|]. intros [= ->]. contradiction.
  - unfold Private.nextStatus.
    destruct status as [[| | |s| | | |]|]; try (left; fail).
    destruct (String.eqb s "Pending"); [left|].
    destruct (String.eqb s "Processing"); [right; left|].
    destruct (String.eqb s "Shipped"); [right; right; left|].
    destruct (String.eqb s "Delivered"); [right; right; left|left].
Qed.

(** ** The handlers of the second dashboard *)

Section PrivateFacts.
Variable appId : string.
Variable sdk : sdk_call -> option exn.
Variable doc_refused : string -> string -> option exn.
Variable toISOString : Z -> string.

Lemma private_path_of_user st u :
  userId st = Some u ->
  Private.ordersPath appId st = "artifacts/" +:+ appId +:+ "/users/" +:+ u +:+ "/orders".
Proof. intros H. unfold Private.ordersPath, template_userId. now rewrite H. Qed.

Lemma addOrder_calls now1 now2 st :
  exists calls,
    adds_calls (trace st) (trace (Private.addOrder appId sdk toISOString now1 now2 st).2) calls /\
    (calls = [] \/
     session_ready st = true /\
     truthy (formData st !! "customerName") = true /\
     truthy (formData st !! "item") = true /\
     exists rec, calls = [AddDoc (Some {| path := Private.ordersPath appId st |}) rec]).
Proof.
  unfold Private.addOrder.
  destruct (session_ready st) eqn:Hr; simpl; [|exists []; split; [symmetry; apply app_nil_r|now left]].
  destruct (truthy (formData st !! "customerName")) eqn:Hc; simpl;
    [|exists []; split; [symmetry; apply app_nil_r|now left]].
  destruct (truthy (formData st !! "item")) eqn:Hi; simpl;
    [|exists []; split; [symmetry; apply app_nil_r|now left]].
  unfold try_catch, mbind, M_bind, Private.await, modify. simpl.
  destruct (sdk _); simpl; eexists; (split; [reflexivity|]); right; repeat split; now eexists.
Qed.

Lemma updateOrderStatus_calls now id newStatus st :
  exists calls,
    adds_calls (trace st)
      (trace (Private.updateOrderStatus appId sdk doc_refused toISOString now id newStatus st).2)
      calls /\
    (calls = [] \/
     session_ready st = true /\
     calls = [UpdateDoc (Private.ordersPath appId st) id
                {[ "status" := VStr newStatus; "updatedAt" := VStr (toISOString now) ]}]).
Proof.
  unfold Private.updateOrderStatus.
  destruct (session_ready st) eqn:Hr; simpl; [|exists []; split; [symmetry; apply app_nil_r|now left]].
  unfold try_catch, mbind, M_bind, Private.await, Private.docRef, modify, throw, mret, M_ret.
  destruct (doc_refused _ _); simpl; [exists []; split; [symmetry; apply app_nil_r|now left]|].
  destruct (sdk _); simpl; eexists; (split; [reflexivity|]); right; now split.
Qed.

Lemma deleteOrder_calls id st :
  exists calls,
    adds_calls (trace st) (trace (Private.deleteOrder appId sdk doc_refused id st).2) calls /\
    (calls = [] \/
     session_ready st = true /\ calls = [DeleteDoc (Private.ordersPath appId st) id]).
Proof.
  unfold Private.deleteOrder.
  destruct (session_ready st) eqn:Hr; simpl; [|exists []; split; [symmetry; apply app_nil_r|now left]].
  unfold try_catch, mbind, M_bind, Private.await, Private.docRef, modify, throw, mret, M_ret.
  destruct (doc_refused _ _); simpl; [exists []; split; [symmetry; apply app_nil_r|now left]|].
  destruct (sdk _); simpl; eexists; (split; [reflexivity|]); right; now split.
Qed.

(** X18. The handlers of the second dashboard write to the signed-in user's
    own collection only: each of [addOrder], [updateOrderStatus] and
    [deleteOrder] adds at most one call to the trace, adds none unless [db] and
    a non-empty [userId] are present ([addOrder] also none unless the customer
    name and the item are filled in), and the call addresses
    [artifacts/<appId>/users/<userId>/orders]. *)
Theorem private_handlers_write_own_collection
  (now1 now2 : Z) (id newStatus : string) (st : state) (h : M unit) :
  h ∈ [Private.addOrder appId sdk toISOString now1 now2;
       Private.updateOrderStatus appId sdk doc_refused toISOString now1 id newStatus;
       Private.deleteOrder appId sdk doc_refused id] ->
  exists calls,
    adds_calls (trace st) (trace (h st).2) calls /\
    (List.length calls <= 1)%nat /\
    forall c, c ∈ calls ->
      exists u, u <> "" /\ userId st = Some u /\ is_Some (db st) /\
                call_path c = Some ("artifacts/" +:+ appId +:+ "/users/" +:+ u +:+ "/orders").
Proof.
  intros Hh.
  assert (Hready : session_ready st = true ->
            exists u, u <> "" /\ userId st = Some u /\ is_Some (db st)).
  { unfold session_ready, userId_value. destruct (db st); [|discriminate].
    destruct (userId st) as [u|]; [|discriminate]. simpl. intros H.
    exists u. repeat split; [intros ->; discriminate|now eexists]. }
  rewrite !elem_of_cons in Hh. destruct Hh as [->|[->|[->|Hh]]]; [| | |now apply elem_of_nil in Hh].
  - destruct (addOrder_calls now1 now2 st) as (calls & Hadd & [->|(Hr & _ & _ & rec & ->)]).
    + exists []. split; [exact Hadd|]. split; [simpl; lia|]. intros c Hc. now apply elem_of_nil in Hc.
    + eexists. split; [exact Hadd|]. split; [simpl; lia|].
      intros c Hc. apply list_elem_of_singleton in Hc as ->.
      destruct (Hready Hr) as (u & Hu & Hid & Hdb). exists u. repeat split; try assumption.
      simpl. f_equal. now apply private_path_of_user.
  - destruct (updateOrderStatus_calls now1 id newStatus st) as (calls & Hadd & [->|(Hr & ->)]).
    + exists []. split; [exact Hadd|]. split; [simpl; lia|]. intros c Hc. now apply elem_of_nil in Hc.
    + eexists. split; [exact Hadd|]. split; [simpl; lia|].
      intros c Hc. apply list_elem_of_singleton in Hc as ->.
      destruct (Hready Hr) as (u & Hu & Hid & Hdb). exists u. repeat split; try assumption.
      simpl. f_equal. now apply private_path_of_user.
  - destruct (deleteOrder_calls id st) as (calls & Hadd & [->|(Hr & ->)]).
    + exists []. split; [exact Hadd|]. split; [simpl; lia|]. intros c Hc. now apply elem_of_nil in Hc.
    + eexists. split; [exact Hadd|]. split; [simpl; lia|].
      intros c Hc. apply list_elem_of_singleton in Hc as ->.
      destruct (Hready Hr) as (u & Hu & Hid & Hdb). exists u. repeat split; try assumption.
      simpl. f_equal. now apply private_path_of_user.
Qed.

(** X19. A use of an order card in a ready session: on a Delivered order
    nothing happens; on any other order whose id the SDK takes, exactly one
    [updateDoc] call is made on that order with the patch of [status] and
    [updatedAt] only, the status being the card's next status. A rejection by
    the SDK is reported as "Error al actualizar el estado de la orden.". *)
Theorem card_click_behaviour (now : Z) (id : string) (status : option jsvalue) (st : state) :
  session_ready st = true ->
  doc_refused (Private.ordersPath appId st) id = None ->
  (status = Some (VStr "Delivered") ->
     Private.card_click appId sdk doc_refused toISOString now id status st = (Ok tt, st)) /\
  (status <> Some (VStr "Delivered") ->
     exists st',
       Private.card_click appId sdk doc_refused toISOString now id status st = (Ok tt, st') /\
       trace st' = (trace st ++
         [UpdateDoc (Private.ordersPath appId st) id
            {[ "status" := VStr (Private.nextStatus status);
               "updatedAt" := VStr (toISOString now) ]}])%list /\
       error st' =
         match sdk (UpdateDoc (Private.ordersPath appId st) id
                      {[ "status" := VStr (Private.nextStatus status);
                         "updatedAt" := VStr (toISOString now) ]}) with
         | None => error st
         | Some _ => Some "Error al actualizar el estado de la orden."
         end).
Proof.
  intros Hr Hdoc. split.
  - intros ->. reflexivity.
  - intros Hne. unfold Private.card_click.
    assert (Hcan : Private.canAdvanceStatus status = true).
    { destruct (Private.canAdvanceStatus status) eqn:E; [reflexivity|].
      unfold Private.canAdvanceStatus in E.
      destruct status as [[| | |s| | | |]|]; try discriminate.
      destruct (String.eqb_spec s "Delivered") as [->|]; [contradiction|discriminate]. }
    rewrite Hcan. unfold Private.updateOrderStatus. rewrite Hr. simpl.
    unfold try_catch, mbind, M_bind, Private.await, Private.docRef, modify, throw, mret, M_ret.
    rewrite Hdoc. simpl.
    destruct (sdk _); simpl; eexists; repeat split.
Qed.

End PrivateFacts.

Lemma private_handlers_write_own_collection_witness :
  exists calls,
    adds_calls (trace Sample.ready)
      (trace (Private.deleteOrder "app" Sample.sdk_ok Sample.doc_ok "b" Sample.ready).2) calls /\
    (List.length calls <= 1)%nat.
Proof.
  destruct (private_handlers_write_own_collection
              "app" Sample.sdk_ok Sample.doc_ok (fun _ => "1970-01-01T00:00:05.000Z") 5000 5000 "b" "Shipped"
              Sample.ready (Private.deleteOrder "app" Sample.sdk_ok Sample.doc_ok "b"))
    as (calls & Hadd & Hlen & _).
  - right; right; left.
  - now exists calls.
Defined.

Lemma card_click_behaviour_witness :
  exists st',
    Private.card_click "app" Sample.sdk_ok Sample.doc_ok (fun _ => "1970-01-01T00:00:05.000Z")
      5000 "b" (Some (VStr "Processing")) Sample.ready = (Ok tt, st') /\
    List.length (trace st') = 1%nat.
Proof.
  destruct (card_click_behaviour "app" Sample.sdk_ok Sample.doc_ok
              (fun _ => "1970-01-01T00:00:05.000Z") 5000 "b" (Some (VStr "Processing"))
              Sample.ready eq_refl eq_refl) as [_ H].
  destruct (H ltac:(discriminate)) as (st' & Hrun & Htrace & _).
  exists st'. split; [exact Hrun|]. rewrite Htrace. reflexivity.
Defined.


(** ** The handlers of the first dashboard *)

Section OfflineFacts.
Variable appId : string.
Variable sdk : sdk_call -> option exn.
Variable doc_refused : string -> string -> option exn.
Variable null_db : exn.
Variable toISOString : Z -> string.

(** X20. In offline mode ([isFirebaseReady] false) the three operations of
    the first dashboard do nothing but tell the user: each one completes
    normally, makes no SDK call, leaves the form and the session as they
    are, and adds exactly the "FUNCIÓN BLOQUEADA" alert, whatever the form
    holds and whatever order is addressed. *)
Theorem offline_mode_blocks_writes
  (now1 now2 : Z) (id newStatus : string) (os : Offline.offline_state) :
  Offline.isFirebaseReady os = false ->
  let blocked := (Ok tt, Offline.alert blocked_message os) in
  Offline.addOrder appId sdk toISOString now1 now2 os = blocked /\
  Offline.updateOrderStatus appId sdk doc_refused null_db toISOString now1 id newStatus os
    = blocked /\
  Offline.deleteOrder appId sdk doc_refused null_db id os = blocked /\
  Offline.base blocked.2 = Offline.base os /\
  Offline.alerts blocked.2 = (Offline.alerts os ++ [blocked_message])%list.
Proof.
  intros Hoff blocked.
  unfold Offline.addOrder, Offline.updateOrderStatus, Offline.deleteOrder,
    Offline.checkDbStatus.
  rewrite Hoff. simpl. repeat split; reflexivity.
Qed.

(** X21. The guard of the first dashboard looks at [isFirebaseReady] only,
    not at the user: with Firebase ready, a database handle, a filled-in
    form and no signed-in user, [addOrder] still calls [addDoc], on the
    collection [artifacts/<appId>/users/null/orders], with the form's fields
    and the two time stamps. *)
Theorem signed_out_create_goes_to_null_user
  (now1 now2 : Z) (os : Offline.offline_state) :
  Offline.isFirebaseReady os = true ->
  is_Some (db (Offline.base os)) ->
  userId (Offline.base os) = None ->
  truthy (formData (Offline.base os) !! "customerName") = true ->
  truthy (formData (Offline.base os) !! "item") = true ->
  exists os' rec,
    Offline.addOrder appId sdk toISOString now1 now2 os = (Ok tt, os') /\
    trace (Offline.base os') =
      (trace (Offline.base os) ++
         [AddDoc (Some {| path := "artifacts/" +:+ appId +:+ "/users/null/orders" |}) rec])%list /\
    (forall k, k <> "createdAt" -> k <> "updatedAt" ->
               rec !! k = formData (Offline.base os) !! k) /\
    rec !! "createdAt" = Some (VStr (toISOString now1)) /\
    rec !! "updatedAt" = Some (VStr (toISOString now2)).
Proof.
  intros Hon [d Hd] Hu Hc Hi.
  unfold Offline.addOrder, Offline.checkDbStatus. rewrite Hon. cbn [negb orb].
  rewrite Hc, Hi, Hd. cbn [negb orb].
  unfold Private.ordersPath, template_userId. rewrite Hu.
  unfold mbind, M_bind, Private.await, modify.
  destruct (sdk _) eqn:Hs; simpl; do 2 eexists;
    (split; [reflexivity|]); (split; [reflexivity|]);
    (split; [intros k Hk1 Hk2; rewrite !lookup_insert_ne by congruence; reflexivity|]);
    (split; [rewrite lookup_insert_ne by discriminate; apply lookup_insert_eq
            |apply lookup_insert_eq]).
Qed.

End OfflineFacts.

Lemma offline_mode_blocks_writes_witness :
  Offline.deleteOrder "app" Sample.sdk_ok Sample.doc_ok (TypeError "db is null") "b"
    {| Offline.base := Sample.not_ready; Offline.isFirebaseReady := false;
       Offline.alerts := [] |}
  = (Ok tt, {| Offline.base := Sample.not_ready; Offline.isFirebaseReady := false;
               Offline.alerts := [blocked_message] |}).
Proof.
  exact (proj1 (proj2 (proj2
    (offline_mode_blocks_writes "app" Sample.sdk_ok Sample.doc_ok (TypeError "db is null")
       (fun _ => "1970-01-01T00:00:05.000Z") 5000 5000 "b" "Shipped"
       {| Offline.base := Sample.not_ready; Offline.isFirebaseReady := false;
          Offline.alerts := [] |} eq_refl)))).
Defined.

Lemma signed_out_create_goes_to_null_user_witness :
  exists os' rec,
    Offline.addOrder "app" Sample.sdk_ok (fun _ => "1970-01-01T00:00:05.000Z") 5000 5000
      sample_signed_out = (Ok tt, os') /\
    trace (Offline.base os') =
      [AddDoc (Some {| path := "artifacts/app/users/null/orders" |}) rec].
Proof.
  destruct (signed_out_create_goes_to_null_user "app" Sample.sdk_ok
              (fun _ => "1970-01-01T00:00:05.000Z") 5000 5000 sample_signed_out)
    as (os' & rec & Hrun & Htrace & _).
  - reflexivity.
  - vm_compute. eexists. reflexivity.
  - reflexivity.
  - vm_compute. reflexivity.
  - vm_compute. reflexivity.
  - exists os', rec. split; [exact Hrun|exact Htrace].
Defined.


(** ** The form of the second dashboard *)

Section PrivateFormFacts.
Variable appId : string.
Variable sdk : sdk_call -> option exn.
Variable Number : string -> jsvalue.
Variable toISOString : Z -> string.

(** X22. Filling in the empty form and submitting it, in a ready session:
    after a non-empty customer name and a non-empty item are typed, [addOrder]
    makes exactly one [addDoc] call on the user's collection, with the typed
    name and item, the defaults quantity 1 and status "Pending", and the two
    time stamps. When the SDK accepts, the form is back to its initial
    content and no error is set; when it rejects, the typed content stays in
    the form and the error is "Error al guardar la orden.". *)
Theorem typed_order_is_sent (name item : string) (now1 now2 : Z) (st : state) :
  session_ready st = true ->
  formData st = Private.initial_newOrder ->
  name <> "" -> item <> "" ->
  let typed := Private.handleInputChange Number "item" item
                 (Private.handleInputChange Number "customerName" name st) in
  let call := AddDoc (Some {| path := Private.ordersPath appId st |})
                {[ "customerName" := VStr name; "item" := VStr item;
                   "quantity" := VNum 1; "status" := VStr "Pending";
                   "createdAt" := VStr (toISOString now1);
                   "updatedAt" := VStr (toISOString now2) ]} in
  exists st',
    Private.addOrder appId sdk toISOString now1 now2 typed = (Ok tt, st') /\
    trace st' = (trace st ++ [call])%list /\
    match sdk call with
    | None => formData st' = Private.initial_newOrder /\ error st' = error st
    | Some _ => formData st' = formData typed /\
                error st' = Some "Error al guardar la orden."
    end.
Proof.
  intros Hr Hf Hn Hi typed call.
  assert (Hrec :
    <["updatedAt" := VStr (toISOString now2)]>
      (<["createdAt" := VStr (toISOString now1)]> (formData typed))
    = {[ "customerName" := VStr name; "item" := VStr item;
         "quantity" := VNum 1; "status" := VStr "Pending";
         "createdAt" := VStr (toISOString now1);
         "updatedAt" := VStr (toISOString now2) ]}).
  { subst typed. unfold Private.handleInputChange. simpl. rewrite Hf.
    apply map_eq. intros k.
    destruct (decide (k = "updatedAt")) as [->|]; [reflexivity|].
    destruct (decide (k = "createdAt")) as [->|]; [reflexivity|].
    destruct (decide (k = "customerName")) as [->|]; [reflexivity|].
    destruct (decide (k = "item")) as [->|]; [reflexivity|].
    destruct (decide (k = "quantity")) as [->|]; [reflexivity|].
    destruct (decide (k = "status")) as [->|]; [reflexivity|].
    unfold Private.initial_newOrder.
    rewrite !lookup_insert_ne by congruence.
    rewrite !lookup_singleton_ne by congruence. reflexivity. }
  assert (Hready : session_ready typed = true) by exact Hr.
  assert (Hname : truthy (formData typed !! "customerName") = true).
  { subst typed. unfold Private.handleInputChange. simpl.
    rewrite lookup_insert_ne by discriminate. rewrite lookup_insert_eq.
    simpl. destruct name; [contradiction|reflexivity]. }
  assert (Hitem : truthy (formData typed !! "item") = true).
  { subst typed. unfold Private.handleInputChange. simpl.
    rewrite lookup_insert_eq. simpl. destruct item; [contradiction|reflexivity]. }
  unfold Private.addOrder. rewrite Hready, Hname, Hitem. cbn [negb orb].
  rewrite Hrec.
  change (Private.ordersPath appId typed) with (Private.ordersPath appId st).
  fold call.
  unfold try_catch, mbind, M_bind, Private.await, modify.
  destruct (sdk call); simpl; eexists; repeat split.
Qed.

End PrivateFormFacts.

Lemma typed_order_is_sent_witness :
  exists st',
    Private.addOrder "app" Sample.sdk_ok (fun _ => "1970-01-01T00:00:05.000Z") 5000 5000
      (Private.handleInputChange (fun _ => VNum 1) "item" "Mesa"
         (Private.handleInputChange (fun _ => VNum 1) "customerName" "Ana"
            (set_formData Private.initial_newOrder Sample.ready))) = (Ok tt, st') /\
    formData st' = Private.initial_newOrder.
Proof.
  destruct (typed_order_is_sent "app" Sample.sdk_ok (fun _ => VNum 1)
              (fun _ => "1970-01-01T00:00:05.000Z") "Ana" "Mesa" 5000 5000
              (set_formData Private.initial_newOrder Sample.ready))
    as (st' & Hrun & _ & Hform).
  - reflexivity.
  - reflexivity.
  - discriminate.
  - discriminate.
  - exists st'. split; [exact Hrun|]. exact (proj1 Hform).
Defined.
